(** * gorouter: the proxy's request pipeline, its metrics reporter and its
    retrying round-tripper

  A shallow embedding of
  - [metrics/metrics_reporter.go]  (module [Metrics]),
  - [proxy/proxy.go]               (module [Proxy]),
  - the retry policy of [proxy/round_tripper] (module [RoundTripper]),
  with Go strings as byte strings ([string]), [http.Header] as a finite map
  from canonical keys to lists of field values, Go's [int] as [Z], and the
  collaborators the code drives through interfaces (metric batcher, endpoint
  iterator, transport) as explicit state. *)

From Stdlib Require Import ZArith Ascii String List Bool Lia DecimalString.
From stdpp Require Import base option list gmap strings.

Import ListNotations.
Local Open Scope string_scope.
Local Open Scope Z_scope.

(** ** Go's [strings] package, on byte strings *)

Module GoStrings.

(** [strings.HasPrefix(s, prefix)]. *)
Definition HasPrefix (s pre : string) : bool := String.prefix pre s.

(** Position of the first occurrence of [sub] in [s], counted from [i]. *)
Fixpoint indexFrom (i : nat) (s sub : string) : option nat :=
  if String.prefix sub s then Some i
  else match s with
       | EmptyString => None
       | String _ s' => indexFrom (S i) s' sub
       end.

(** [strings.Index(s, sub)]: the byte index of the first instance of [sub]
    in [s], or [-1] when [sub] does not occur. *)
Definition Index (s sub : string) : Z :=
  match indexFrom 0 s sub with
  | Some i => Z.of_nat i
  | None => -1
  end.

(** [strings.Contains(s, sub)]. *)
Definition Contains (s sub : string) : bool := 0 <=? Index s sub.

(** The slice expression [s[0:hi]]. *)
Definition sliceTo (s : string) (hi : Z) : string :=
  String.substring 0 (Z.to_nat hi) s.

Definition isUpperByte (c : ascii) : bool :=
  ((65 <=? nat_of_ascii c) && (nat_of_ascii c <=? 90))%nat.

Definition isLowerByte (c : ascii) : bool :=
  ((97 <=? nat_of_ascii c) && (nat_of_ascii c <=? 122))%nat.

Definition lowerByte (c : ascii) : ascii :=
  if isUpperByte c then ascii_of_nat (nat_of_ascii c + 32) else c.

Definition upperByte (c : ascii) : ascii :=
  if isLowerByte c then ascii_of_nat (nat_of_ascii c - 32) else c.

Fixpoint mapBytes (f : ascii -> ascii) (s : string) : string :=
  match s with
  | EmptyString => EmptyString
  | String c s' => String (f c) (mapBytes f s')
  end.

(** [strings.ToLower] restricted to ASCII input: on a string whose bytes
    are all below 0x80 Go lowers [A-Z] and keeps every other byte.  (On
    other input Go decodes runes; the proxy's definitions below therefore
    take the lowering function as a parameter, and this one instantiates
    it on concrete ASCII requests.) *)
Definition asciiToLower (s : string) : string := mapBytes lowerByte s.

(** [fmt.Sprintf("%d", n)]. *)
Definition fmt_d (n : Z) : string := NilZero.string_of_int (Z.to_int n).

End GoStrings.

(** ** [net/http]: headers, cookies, requests, responses *)

Module Http.
Import GoStrings.

(** [http.Header] is [map[string][]string]. *)
Abbreviation Header := (gmap string (list string)).

(** The bytes RFC 7230 allows in a field name ([validHeaderFieldByte]). *)
Definition validHeaderFieldByte (c : ascii) : bool :=
  let n := nat_of_ascii c in
  (isUpperByte c || isLowerByte c || ((48 <=? n) && (n <=? 57))
   || existsb (Nat.eqb n) [33; 35; 36; 37; 38; 39; 42; 43; 45; 46; 94; 95; 96; 124; 126])%nat.

Fixpoint allBytes (p : ascii -> bool) (s : string) : bool :=
  match s with
  | EmptyString => true
  | String c s' => p c && allBytes p s'
  end.

(** The rewriting loop of [canonicalMIMEHeaderKey]: upper case at the start
    and after each dash, lower case elsewhere. *)
Fixpoint canonicalize (upper : bool) (s : string) : string :=
  match s with
  | EmptyString => EmptyString
  | String c s' =>
      let c' := if upper then upperByte c else lowerByte c in
      String c' (canonicalize (Ascii.eqb c' "-") s')
  end.

(** [http.CanonicalHeaderKey]: a key holding a byte that is not a valid
    field-name byte is returned unchanged. *)
Definition CanonicalHeaderKey (s : string) : string :=
  if allBytes validHeaderFieldByte s then canonicalize true s else s.

(** [h.Get(key)]: the first value stored under the canonical key, or the
    empty string. *)
Definition HeaderGet (h : Header) (key : string) : string :=
  match h !! CanonicalHeaderKey key with
  | Some (v :: _) => v
  | _ => ""
  end.

(** [h.Set(key, value)]. *)
Definition HeaderSet (h : Header) (key value : string) : Header :=
  <[CanonicalHeaderKey key := [value]]> h.

(** [h.Del(key)]. *)
Definition HeaderDel (h : Header) (key : string) : Header :=
  delete (CanonicalHeaderKey key) h.

(** [http.Cookie], with the fields the proxy reads and writes.  [MaxAge]
    is a Go [int]. *)
Record Cookie := mkCookie {
  Name : string;
  Value : string;
  Path : string;
  MaxAge : Z;
  Secure : bool;
  HttpOnly : bool
}.

(** [url.URL]. *)
Record URL := mkURL {
  Scheme : string;
  Opaque : string;
  UrlHost : string;
  UrlPath : string;
  RawQuery : string
}.

(** A value stored in the request's context. *)
Inductive ContextValue :=
| AccessLogRecordValue (record : string)
| RoutePoolValue (pool : list string)
| OtherValue (v : string).

(** [http.Request].  [TLS] is [true] when the [TLS] field is non-nil;
    [ReqCookies] is what [Cookies()] parses from the [Cookie] header, in
    order; [ReqContext] is the key-value view of [Context()]. *)
Record Request := mkRequest {
  Method : string;
  ReqURL : URL;
  ReqHeader : Header;
  Host : string;
  RequestURI : string;
  TLS : bool;
  ReqCookies : list Cookie;
  ReqContext : gmap string ContextValue
}.

(** [r.Cookie(name)]: the first cookie of that name; [None] stands for
    [http.ErrNoCookie]. *)
Definition RequestCookie (r : Request) (name : string) : option Cookie :=
  List.find (fun c => String.eqb (Name c) name) (ReqCookies r).

(** [http.Response].  [RespCookies] is what [Cookies()] parses from the
    [Set-Cookie] headers, in order. *)
Record Response := mkResponse {
  StatusCode : Z;
  RespHeader : Header;
  RespCookies : list Cookie
}.

(** [http.ResponseWriter], as far as [http.SetCookie] is concerned: the
    [http.Cookie] values handed to [http.SetCookie] for its [Set-Cookie]
    header, oldest first (the library writes each as [Cookie.String()]
    serialises it), and whether the writer implements
    [utils.ProxyResponseWriter]. *)
Record ResponseWriter := mkResponseWriter {
  IsProxyResponseWriter : bool;
  SetCookies : list Cookie
}.

(** [http.SetCookie(w, cookie)].  The cookie is serialised for every valid
    cookie name, and the proxy only ever passes the constant name
    [__VCAP_ID__]. *)
Definition SetCookie (w : ResponseWriter) (c : Cookie) : ResponseWriter :=
  {| IsProxyResponseWriter := IsProxyResponseWriter w;
     SetCookies := SetCookies w ++ [c] |}.

End Http.

(** ** [route.Endpoint] *)

Module Route.

(** Modelled from the spec: the declaration of [route.Endpoint] is not part
    of the sources at hand.  One backend instance: application identifier,
    host, port, private instance identifier, instance index, tags, stale
    threshold in seconds and the optional route-service URL. *)
Record Endpoint := mkEndpoint {
  ApplicationId : string;
  addrHost : string;
  addrPort : Z;
  PrivateInstanceId : string;
  PrivateInstanceIndex : string;
  Tags : gmap string string;
  staleThreshold : Z;
  RouteServiceUrl : string
}.

(** [endpoint.CanonicalAddr()]: host and port joined by a colon. *)
Definition CanonicalAddr (e : Endpoint) : string :=
  addrHost e ++ ":" ++ GoStrings.fmt_d (addrPort e).

End Route.

(** ** metrics/metrics_reporter.go *)

Module Metrics.
Import GoStrings Http Route.

(** The [metrics.MetricBatcher] behind the reporter is an external sink;
    it is represented by the names passed to [BatchIncrementCounter], in
    call order. *)
Record MetricsReporter := mkMetricsReporter {
  sender : list string;
  batcher : list string
}.

Definition NewMetricsReporter (sender batcher : list string) : MetricsReporter :=
  {| sender := sender; batcher := batcher |}.

Definition BatchIncrementCounter (name : string) (m : MetricsReporter) : MetricsReporter :=
  {| sender := sender m; batcher := batcher m ++ [name] |}.

(** How often counter [name] has been incremented. *)
Definition counterValue (m : MetricsReporter) (name : string) : nat :=
  count_occ string_dec (batcher m) name.

Definition CaptureBadRequest (m : MetricsReporter) : MetricsReporter :=
  BatchIncrementCounter "rejected_requests" m.

Definition CaptureBadGateway (m : MetricsReporter) : MetricsReporter :=
  BatchIncrementCounter "bad_gateways" m.

Definition CaptureRoutingRequest (m : MetricsReporter) (b : Endpoint) : MetricsReporter :=
  let m := BatchIncrementCounter "total_requests" m in
  match Tags b !! "component" with
  | Some componentName =>
      if (0 <? String.length componentName)%nat then
        let m := BatchIncrementCounter ("requests." ++ componentName) m in
        if HasPrefix componentName "dea-"
        then BatchIncrementCounter "routed_app_requests" m
        else m
      else m
  | None => m
  end.

(** [res] is a [*http.Response]; [None] is the nil pointer.  Go's integer
    division truncates toward zero. *)
Definition getResponseCounterName (res : option Response) : string :=
  let statusCode :=
    match res with
    | Some r => Z.quot (StatusCode r) 100
    | None => 0
    end in
  if (2 <=? statusCode) && (statusCode <=? 5)
  then fmt_d statusCode ++ "xx"
  else "xxx".

Definition CaptureRouteServiceResponse (m : MetricsReporter) (res : option Response) : MetricsReporter :=
  let m := BatchIncrementCounter ("responses.route_services." ++ getResponseCounterName res) m in
  BatchIncrementCounter "responses.route_services" m.

Definition CaptureRoutingResponse (m : MetricsReporter) (res : option Response) : MetricsReporter :=
  let m := BatchIncrementCounter ("responses." ++ getResponseCounterName res) m in
  BatchIncrementCounter "responses" m.

End Metrics.

(** ** proxy/proxy.go *)

Module Proxy.
Import GoStrings Http Route.

Definition VcapCookieId : string := "__VCAP_ID__".
Definition StickyCookieKey : string := "JSESSIONID".

(** Modelled from the spec: the constant [router_http.CfAppInstance] is
    declared in package [common/http], which is not among the embedded
    files; the header it names is [X-CF-App-Instance]. *)
Definition CfAppInstance : string := "X-CF-App-Instance".

(** The configuration fields of [proxy] read by the functions below. *)
Record proxy := mkProxy {
  ip : string;
  traceKey : string;
  secureCookies : bool;
  healthCheckUserAgent : string;
  forceForwardedProtoHttps : bool;
  defaultLoadBalance : string
}.

Definition hostWithoutPort (req : Request) : string :=
  let host := Host req in
  (* Remove :<port> *)
  let pos := Index host ":" in
  if 0 <=? pos then sliceTo host pos else host.

Definition withHeader (r : Request) (h : Header) : Request :=
  {| Method := Method r; ReqURL := ReqURL r; ReqHeader := h; Host := Host r;
     RequestURI := RequestURI r; TLS := TLS r; ReqCookies := ReqCookies r;
     ReqContext := ReqContext r |}.

Definition withURL (r : Request) (u : URL) : Request :=
  {| Method := Method r; ReqURL := u; ReqHeader := ReqHeader r; Host := Host r;
     RequestURI := RequestURI r; TLS := TLS r; ReqCookies := ReqCookies r;
     ReqContext := ReqContext r |}.

(** Modelled from the spec: [handler.SetRequestXRequestStart] lives in
    package [proxy/handler], which is not among the embedded files.  It
    stamps [X-Request-Start] with the current millisecond timestamp if the
    header is absent. *)
Definition SetRequestXRequestStart (nowMillis : Z) (request : Request) : Request :=
  match ReqHeader request !! CanonicalHeaderKey "X-Request-Start" with
  | Some _ => request
  | None => withHeader request (HeaderSet (ReqHeader request) "X-Request-Start" (fmt_d nowMillis))
  end.

(** The director.  [source] and [target] are two requests with header maps
    of their own; the result is the pair of both after the call. *)
Definition setupProxyRequest (p : proxy) (nowMillis : Z) (source target : Request)
  : Request * Request :=
  let target :=
    if forceForwardedProtoHttps p then
      withHeader target (HeaderSet (ReqHeader target) "X-Forwarded-Proto" "https")
    else if String.eqb (HeaderGet (ReqHeader source) "X-Forwarded-Proto") "" then
      let scheme := if TLS source then "https" else "http" in
      withHeader target (HeaderSet (ReqHeader target) "X-Forwarded-Proto" scheme)
    else target in
  let target :=
    withURL target
      {| Scheme := "http";
         Opaque := RequestURI source;
         UrlHost := Host source;
         UrlPath := UrlPath (ReqURL target);
         RawQuery := "" |} in
  let source := SetRequestXRequestStart nowMillis source in
  let target := withHeader target (HeaderDel (ReqHeader target) CfAppInstance) in
  (source, target).

(** The loop over [response.Cookies()] in [setupStickySession], which stops
    at the first cookie named [JSESSIONID]; the state is
    [(sticky, maxAge, secure)]. *)
Fixpoint scanStickyCookie (cookies : list Cookie) (st : bool * Z * bool) : bool * Z * bool :=
  match cookies with
  | [] => st
  | v :: rest =>
      if String.eqb (Name v) StickyCookieKey then
        let '(_, maxAge, _) := st in
        (true, (if MaxAge v <? 0 then MaxAge v else maxAge), Secure v)
      else scanStickyCookie rest st
  end.

Definition setupStickySession (responseWriter : ResponseWriter) (response : Response)
    (endpoint : Endpoint) (originalEndpointId : string) (secureCookies : bool)
    (path : string) : ResponseWriter :=
  (* did the endpoint change? *)
  let sticky := negb (String.eqb originalEndpointId "")
                && negb (String.eqb originalEndpointId (PrivateInstanceId endpoint)) in
  let '(sticky, maxAge, secure) := scanStickyCookie (RespCookies response) (sticky, 0, false) in
  if sticky then
    let secure := if secureCookies then true else secure in
    let cookie := {| Name := VcapCookieId;
                     Value := PrivateInstanceId endpoint;
                     Path := path;
                     MaxAge := maxAge;
                     HttpOnly := true;
                     Secure := secure |} in
    SetCookie responseWriter cookie
  else responseWriter.

Definition getStickySession (request : Request) : string :=
  match RequestCookie request StickyCookieKey with
  | Some _ =>
      match RequestCookie request VcapCookieId with
      | Some sticky => Value sticky
      | None => ""
      end
  | None => ""
  end.

(** What [ServeHTTP] hands the request to.  [iter] is described by the
    arguments of [routePool.Endpoints]. *)
Record IteratorSpec := mkIteratorSpec {
  iterPool : list string;
  iterLoadBalance : string;
  iterStickyEndpointId : string
}.

Inductive Dispatch :=
| Panic
| HttpError (message : string) (code : Z)
| HandleTcpRequest (iter : IteratorSpec)
| HandleWebSocketRequest (iter : IteratorSpec)
| NextHandler.

Section Upgrade.

(** Go's [strings.ToLower]. *)
Variable ToLower : string -> string.

(** The loop of [upgradeHeader] over the values stored under [Connection]. *)
Fixpoint upgradeHeaderLoop (request : Request) (values : list string) : string :=
  match values with
  | [] => ""
  | v :: rest =>
      (* upgrade should be case insensitive per RFC6455 4.2.1 *)
      if Contains (ToLower v) "upgrade"
      then HeaderGet (ReqHeader request) "Upgrade"
      else upgradeHeaderLoop request rest
  end.

Definition upgradeHeader (request : Request) : string :=
  upgradeHeaderLoop request
    (default [] (ReqHeader request !! CanonicalHeaderKey "Connection")).

Definition isWebSocketUpgrade (request : Request) : bool :=
  String.eqb (ToLower (upgradeHeader request)) "websocket".

Definition isTcpUpgrade (request : Request) : bool :=
  String.eqb (upgradeHeader request) "tcp".

(** [(p *proxy) ServeHTTP].  A failed type assertion panics. *)
Definition ServeHTTP (p : proxy) (responseWriter : ResponseWriter) (request : Request)
  : Dispatch :=
  if negb (IsProxyResponseWriter responseWriter) then Panic else
  match ReqContext request !! "AccessLogRecord" with
  | None => HttpError "AccessLogRecord not set on context" 500
  | Some (AccessLogRecordValue accessLog) =>
      match ReqContext request !! "RoutePool" with
      | None => HttpError "RoutePool not set on context" 500
      | Some (RoutePoolValue routePool) =>
          let stickyEndpointId := getStickySession request in
          let iter := {| iterPool := routePool;
                         iterLoadBalance := defaultLoadBalance p;
                         iterStickyEndpointId := stickyEndpointId |} in
          if isTcpUpgrade request then HandleTcpRequest iter
          else if isWebSocketUpgrade request then HandleWebSocketRequest iter
          else NextHandler
      | Some _ => Panic
      end
  | Some _ => Panic
  end.

End Upgrade.

(** Modelled from the spec: the lookup handler lives in package [handlers],
    which is not among the embedded files.  It finds the pool for the pair
    (host without port, request path). *)
Definition lookupKey (request : Request) : string * string :=
  (hostWithoutPort request, UrlPath (ReqURL request)).

End Proxy.

(** ** proxy/round_tripper: the retrying round-tripper *)

Module RoundTripper.
Import GoStrings Http Route.

(** What a [net.OpError] wraps. *)
Inductive Cause :=
| ECONNRESET
| OtherCause (message : string).

(** Modelled from the spec: the errors [RoundTrip] meets.  [OpError] is
    [net.OpError] with its [Op] and [Err] fields, [NoEndpointsAvailable] is
    the sentinel of package [proxy/handler]. *)
Inductive error :=
| OpError (Op : string) (Err : Cause)
| NoEndpointsAvailable
| OtherError (message : string).

(** Modelled from the spec: the file defining the round-tripper is not among
    the embedded files.  A transport error is retriable exactly when it is a
    connect-time failure (operation "dial") or a connection reset on
    read. *)
Definition retriableError (err : error) : bool :=
  match err with
  | OpError op cause =>
      String.eqb op "dial"
      || (String.eqb op "read" && match cause with ECONNRESET => true | _ => false end)
  | _ => false
  end.

(** Modelled from the spec: maximum attempts, 3. *)
Definition MaxRetries : nat := 3.

(** Modelled from the spec: the header of package [routeservice] that
    carries the application's original URL. *)
Definition RouteServiceForwardedURL : string := "X-CF-Forwarded-Url".

(** What Go's [RoundTrip] returns: a response pointer and an error, either
    of which may be nil. *)
Definition Outcome : Type := option Response * option error.

(** Modelled from the spec: the endpoint iterator, a stateful cursor with
    [Next], [EndpointFailed], [PreRequest] and [PostRequest]; [I] is its
    state. *)
Record EndpointIterator (I : Type) := mkEndpointIterator {
  Next : I -> option Endpoint * I;
  EndpointFailed : I -> I;
  PreRequest : Endpoint -> I -> I;
  PostRequest : Endpoint -> I -> I
}.
Arguments Next {I}.
Arguments EndpointFailed {I}.
Arguments PreRequest {I}.
Arguments PostRequest {I}.

(** The underlying transport, with state [T].  An [http.RoundTripper] must
    not modify the request it is given, so a call returns its result and the
    transport's next state only. *)
Record Transport (T : Type) := mkTransport {
  transportRoundTrip : T -> Request -> Outcome * T
}.
Arguments transportRoundTrip {T}.

(** The calls [RoundTrip] makes on its collaborators. *)
Inductive Call :=
| CallNext
| CallPreRequest (endpoint : Endpoint)
| CallTransport (request : Request)
| CallPostRequest (endpoint : Endpoint)
| CallEndpointFailed
| CallAfterRoundTrip (response : option Response) (endpoint : Endpoint)
    (err : option error).

Definition isCallNext (c : Call) : bool :=
  match c with CallNext => true | _ => false end.

(** The fake iterator's [NextCallCount]. *)
Definition NextCallCount (calls : list Call) : nat :=
  length (List.filter isCallNext calls).


Section RoundTrip.

Context {I T : Type}.
Variable iterator : EndpointIterator I.
Variable transport : Transport T.

(** The state a call of [RoundTrip] works on: the iterator, the transport,
    the request (a pointer in Go, so rewriting it is visible to the caller)
    and the calls made so far. *)
Record State := mkState {
  iter : I;
  trans : T;
  request : Request;
  calls : list Call
}.

Definition record (c : Call) (st : State) : State :=
  {| iter := iter st; trans := trans st; request := request st;
     calls := calls st ++ [c] |}.

Definition onIterator (f : I -> I) (st : State) : State :=
  {| iter := f (iter st); trans := trans st; request := request st;
     calls := calls st |}.

(** Rewrite the outgoing URL host to the endpoint's address. *)
Definition setupRequest (endpoint : Endpoint) (st : State) : State :=
  let r := request st in
  let u := ReqURL r in
  {| iter := iter st; trans := trans st;
     request := Proxy.withURL r
       {| Scheme := Scheme u; Opaque := Opaque u;
          UrlHost := CanonicalAddr endpoint;
          UrlPath := UrlPath u; RawQuery := RawQuery u |};
     calls := calls st |}.

(** One call of the underlying transport with the current request. *)
Definition callTransport (st : State) : Outcome * State :=
  let '(out, t) := transportRoundTrip transport (trans st) (request st) in
  (out, {| iter := iter st; trans := t; request := request st;
           calls := calls st ++ [CallTransport (request st)] |}).

(** Modelled from the spec: the retry policy of backend mode.  [attempts]
    is the number of attempts left, [last] the result of the attempt before
    and [chosen] its endpoint. *)
Fixpoint backendLoop (attempts : nat) (last : Outcome) (chosen : option Endpoint)
    (st : State) : Outcome * option Endpoint * State :=
  match attempts with
  | O => (last, chosen, st)
  | S attempts' =>
      let '(e, i) := Next iterator (iter st) in
      let st := record CallNext (onIterator (fun _ => i) st) in
      match e with
      | None => ((None, Some NoEndpointsAvailable), None, st)
      | Some endpoint =>
          let st := record (CallPreRequest endpoint)
                      (onIterator (PreRequest iterator endpoint) st) in
          let st := setupRequest endpoint st in
          let '(out, st) := callTransport st in
          let st := record (CallPostRequest endpoint)
                      (onIterator (PostRequest iterator endpoint) st) in
          match snd out with
          | Some err =>
              if retriableError err then
                let st := record CallEndpointFailed
                            (onIterator (EndpointFailed iterator) st) in
                backendLoop attempts' out (Some endpoint) st
              else (out, Some endpoint, st)
          | None => (out, Some endpoint, st)
          end
      end
  end.

(** Modelled from the spec: route-service mode, with the same retry count
    and the same classification of errors; the iterator is not advanced,
    [EndpointFailed] is not called and the one target is retried in
    place. *)
Fixpoint routeServiceLoop (attempts : nat) (last : Outcome) (st : State)
  : Outcome * State :=
  match attempts with
  | O => (last, st)
  | S attempts' =>
      let '(out, st) := callTransport st in
      match snd out with
      | Some err =>
          if retriableError err then routeServiceLoop attempts' out st
          else (out, st)
      | None => (out, st)
      end
  end.

(** Modelled from the spec: how the round-tripper was constructed, that is
    its mode, whether an [AfterRoundTrip] callback was given and, for
    route-service mode, the endpoint standing for the route service (the
    spec fixes it at construction without naming its source). *)
Record ProxyRoundTripper := mkProxyRoundTripper {
  servingBackend : bool;
  after : bool;
  routeServiceEndpoint : Endpoint
}.

(** Modelled from the spec: [RoundTrip].  The callback is invoked after a
    successful round-trip. *)
Definition RoundTrip (rt : ProxyRoundTripper) (st : State) : Outcome * State :=
  let '(out, endpoint, st) :=
    if servingBackend rt then backendLoop MaxRetries (None, None) None st
    else let '(out, st) := routeServiceLoop MaxRetries (None, None) st in
         (out, Some (routeServiceEndpoint rt), st) in
  match snd out, endpoint with
  | None, Some e =>
      if after rt then (out, record (CallAfterRoundTrip (fst out) e (snd out)) st)
      else (out, st)
  | _, _ => (out, st)
  end.

End RoundTrip.

Arguments State : clear implicits.
Arguments mkState {I T}.
Arguments iter {I T}.
Arguments trans {I T}.
Arguments request {I T}.
Arguments calls {I T}.

(** The test double of the iterator ([routefakes.FakeEndpointIterator]):
    [Next] returns the value configured with [NextReturns] and the calls
    are counted. *)
Record FakeEndpointIterator := mkFake {
  nextCallCount : nat;
  endpointFailedCallCount : nat
}.

Definition fakeIterator (nextReturns : option Endpoint)
  : EndpointIterator FakeEndpointIterator :=
  {| Next := fun f =>
       (nextReturns,
        {| nextCallCount := S (nextCallCount f);
           endpointFailedCallCount := endpointFailedCallCount f |});
     EndpointFailed := fun f =>
       {| nextCallCount := nextCallCount f;
          endpointFailedCallCount := S (endpointFailedCallCount f) |};
     PreRequest := fun _ f => f;
     PostRequest := fun _ f => f |}.

(** The test double of the transport: a stub answering the [n]-th call
    (counted from 0) with [stub n]; its state is the number of calls. *)
Definition stubTransport (stub : nat -> Outcome) : Transport nat :=
  {| transportRoundTrip := fun n _ => (stub n, S n) |}.

End RoundTripper.

(** ** Reference definitions and fixtures

    Functions the statements below compare the code with, and the concrete
    values their examples run on. *)

Module Fixtures.
Import GoStrings Http Route Metrics.

(** The empty reporter and an endpoint with a given component tag. *)
Definition freshReporter : MetricsReporter := NewMetricsReporter [] [].

Definition endpointWithComponent (component : string) : Endpoint :=
  {| ApplicationId := "someId"; addrHost := "host"; addrPort := 2222;
     PrivateInstanceId := "privateId"; PrivateInstanceIndex := "2";
     Tags := {[ "component" := component ]};
     staleThreshold := 30; RouteServiceUrl := "" |}.

(** The counters [CaptureRoutingRequest] increments after [total_requests],
    in order, for a given component tag lookup. *)
Definition componentCounters (tag : option string) : list string :=
  match tag with
  | Some c =>
      if String.eqb c "" then []
      else ("requests." ++ c)
           :: (if HasPrefix c "dea-" then ["routed_app_requests"] else [])
  | None => []
  end.

(** The decimal digit [n], for [0 <= n <= 9]. *)
Definition digit (n : Z) : ascii := ascii_of_nat (48 + Z.to_nat n).

(** Whether byte [c] occurs in [s]. *)
Fixpoint occursIn (c : ascii) (s : string) : bool :=
  match s with
  | EmptyString => false
  | String a s' => Ascii.eqb a c || occursIn c s'
  end.

Definition emptyURL : URL :=
  {| Scheme := ""; Opaque := ""; UrlHost := ""; UrlPath := "/"; RawQuery := "" |}.

(** [test_util.NewRequest("GET", host, "/", nil)], with a given header. *)
Definition requestTo (host : string) (header : Header) : Request :=
  {| Method := "GET"; ReqURL := emptyURL; ReqHeader := header; Host := host;
     RequestURI := "/"; TLS := false; ReqCookies := [];
     ReqContext := {[ "AccessLogRecord" := AccessLogRecordValue "";
                      "RoutePool" := RoutePoolValue [] ]} |}.

Definition responseWithStatus (code : Z) : Response :=
  {| StatusCode := code; RespHeader := ∅; RespCookies := [] |}.

End Fixtures.

(** ** Reference definitions for the proxy *)

Module ProxyFixtures.
Import GoStrings Http Route Proxy Fixtures.

(** The upstream [JSESSIONID] cookie: the first cookie of that name among
    [response.Cookies()]. *)
Definition upstreamStickyCookie (response : Response) : option Cookie :=
  List.find (fun c => String.eqb (Name c) StickyCookieKey) (RespCookies response).

(** The preferred endpoint is named and is not the chosen one. *)
Definition endpointChanged (originalEndpointId : string) (endpoint : Endpoint) : Prop :=
  originalEndpointId <> "" /\ originalEndpointId <> PrivateInstanceId endpoint.

(** Some field value of the [Connection] header contains [upgrade] once
    lowered. *)
Definition connectionHasUpgrade (ToLower : string -> string) (request : Request) : Prop :=
  exists v,
    In v (default [] (ReqHeader request !! CanonicalHeaderKey "Connection"))
    /\ Contains (ToLower v) "upgrade" = true.

Definition defaultProxy : proxy :=
  {| ip := "127.0.0.1"; traceKey := ""; secureCookies := false;
     healthCheckUserAgent := "HTTP-Monitor/1.1";
     forceForwardedProtoHttps := false; defaultLoadBalance := "round-robin" |}.

Definition proxyWriter : ResponseWriter :=
  {| IsProxyResponseWriter := true; SetCookies := [] |}.

Definition cookie (name value : string) (maxAge : Z) (secure : bool) : Cookie :=
  {| Name := name; Value := value; Path := "/"; MaxAge := maxAge;
     Secure := secure; HttpOnly := false |}.

Definition responseWithCookies (cookies : list Cookie) : Response :=
  {| StatusCode := 200; RespHeader := ∅; RespCookies := cookies |}.

Definition endpointWithInstance (privateId : string) : Endpoint :=
  {| ApplicationId := "someId"; addrHost := "host"; addrPort := 2222;
     PrivateInstanceId := privateId; PrivateInstanceIndex := "2";
     Tags := ∅; staleThreshold := 30; RouteServiceUrl := "" |}.

End ProxyFixtures.

(** ** Reference definitions for the round-tripper *)

Module RoundTripperFixtures.
Import GoStrings Http Route RoundTripper Fixtures ProxyFixtures.

Section Collaborators.
Context {I T : Type}.
Variable iterator : EndpointIterator I.
Variable transport : Transport T.

(** [Next] yields an endpoint in every state: the pool is not empty. *)
Definition alwaysYields : Prop :=
  forall i, exists e i', Next iterator i = (Some e, i').



(** The state of the round-tripper after one backend attempt on [endpoint]
    during which the iterator moved to [i] and the transport to [t];
    [failed] tells whether [EndpointFailed] was called. *)
Definition afterAttempt (st : State I T) (endpoint : Endpoint) (i : I) (t : T)
    (failed : bool) : State I T :=
  let r := request (setupRequest endpoint st) in
  let i := PostRequest iterator endpoint (PreRequest iterator endpoint i) in
  {| iter := if failed then EndpointFailed iterator i else i;
     trans := t;
     request := r;
     calls := calls st
              ++ [CallNext; CallPreRequest endpoint; CallTransport r;
                  CallPostRequest endpoint]
              ++ (if failed then [CallEndpointFailed] else []) |}.

End Collaborators.

(** A call route-service mode may make for request [r]: the transport with
    that very request, or the callback. *)
Definition routeServiceCall (r : Request) (c : Call) : Prop :=
  match c with
  | CallTransport r' => r' = r
  | CallAfterRoundTrip _ _ _ => True
  | _ => False
  end.

Definition dialError : error := OpError "dial" (OtherCause "error").
Definition connResetError : error := OpError "read" ECONNRESET.

Definition backendEndpoint : Endpoint := endpointWithInstance "id-1".

Definition routeServiceTarget : Endpoint :=
  {| ApplicationId := ""; addrHost := ""; addrPort := 0;
     PrivateInstanceId := ""; PrivateInstanceIndex := "";
     Tags := ∅; staleThreshold := 0;
     RouteServiceUrl := "https://routeservice.net/" |}.

Definition freshFake : FakeEndpointIterator :=
  {| nextCallCount := 0; endpointFailedCallCount := 0 |}.

Definition backendRoundTripper : ProxyRoundTripper :=
  {| servingBackend := true; after := false; routeServiceEndpoint := routeServiceTarget |}.

Definition routeServiceRoundTripper : ProxyRoundTripper :=
  {| servingBackend := false; after := true; routeServiceEndpoint := routeServiceTarget |}.

(** The transport stubs of the tests: every call fails, and only the first
    call fails. *)
Definition alwaysFailing (err : error) : Transport nat :=
  stubTransport (fun _ => (None, Some err)).

Definition firstCallFailing (response : option Response) : Transport nat :=
  stubTransport (fun n => match n with O => (None, Some dialError) | _ => (response, None) end).

Definition testRequest : Request :=
  requestTo "myapp.com" {[ "X-Cf-Forwarded-Url" := ["http://myapp.com/"] ]}.

Definition startState : State FakeEndpointIterator nat :=
  {| iter := freshFake; trans := 0%nat; request := testRequest; calls := [] |}.

End RoundTripperFixtures.

(** ** metrics/metrics_reporter.go: the calls on the metric sender *)

Module MetricsSender.
Import GoStrings Http Route Metrics.

(** [m.sender.IncrementCounter(name)]: the [sender] field holds the names
    passed to [IncrementCounter], in call order. *)
Definition IncrementCounter (name : string) (m : MetricsReporter) : MetricsReporter :=
  {| sender := sender m ++ [name]; batcher := batcher m |}.

(** [reporter.ComponentTagged], an interface with the one method
    [Component()]. *)
Record ComponentTagged := mkComponentTagged {
  Component : string
}.

Definition CaptureRegistryMessage (m : MetricsReporter) (msg : ComponentTagged)
  : MetricsReporter :=
  IncrementCounter ("registry_message." ++ Component msg) m.

Definition CaptureUnregistryMessage (m : MetricsReporter) (componentName : string)
  : MetricsReporter :=
  let callString := "unregistry_message" in
  let callString :=
    if negb (String.eqb componentName "")
    then callString ++ ("." ++ componentName)
    else callString in
  IncrementCounter callString m.

(** One call [m.sender.SendValue(name, value, unit)].  The value sent is the
    [float64] conversion of the integer [sentInteger]. *)
Record SentValue := mkSentValue {
  sentName : string;
  sentInteger : Z;
  sentUnit : string
}.

(** [time.Millisecond], a [time.Duration] counted in nanoseconds. *)
Definition Millisecond : Z := 1000000.

(** [CaptureRoutingResponseLatency], as the [SendValue] calls it makes, in
    order.  [d] is a [time.Duration]; [res] and [t] are not read. *)
Definition CaptureRoutingResponseLatency (b : Endpoint) (res : option Response)
    (t : Z) (d : Z) : list SentValue :=
  let latency := Z.quot d Millisecond in
  let unit := "ms" in
  {| sentName := "latency"; sentInteger := latency; sentUnit := unit |}
  :: match Tags b !! "component" with
     | Some componentName =>
         if (0 <? String.length componentName)%nat
         then [ {| sentName := "latency." ++ componentName;
                   sentInteger := latency; sentUnit := unit |} ]
         else []
     | None => []
     end.

(** A call on the reporter, and a run of calls in order. *)
Inductive ReporterCall :=
| BadRequest
| BadGateway
| RoutingRequest (b : Endpoint)
| RoutingResponse (res : option Response)
| RouteServiceResponse (res : option Response)
| RegistryMessage (msg : ComponentTagged)
| UnregistryMessage (componentName : string).

Definition perform (m : MetricsReporter) (c : ReporterCall) : MetricsReporter :=
  match c with
  | BadRequest => CaptureBadRequest m
  | BadGateway => CaptureBadGateway m
  | RoutingRequest b => CaptureRoutingRequest m b
  | RoutingResponse res => CaptureRoutingResponse m res
  | RouteServiceResponse res => CaptureRouteServiceResponse m res
  | RegistryMessage msg => CaptureRegistryMessage m msg
  | UnregistryMessage componentName => CaptureUnregistryMessage m componentName
  end.

Definition performAll (m : MetricsReporter) (cs : list ReporterCall) : MetricsReporter :=
  fold_left perform cs m.

(** The counter names a call passes to the batcher, in order. *)
Definition batched (c : ReporterCall) : list string :=
  match c with
  | BadRequest => ["rejected_requests"]
  | BadGateway => ["bad_gateways"]
  | RoutingRequest b => "total_requests" :: Fixtures.componentCounters (Tags b !! "component")
  | RoutingResponse res => ["responses." ++ getResponseCounterName res; "responses"]
  | RouteServiceResponse res =>
      ["responses.route_services." ++ getResponseCounterName res;
       "responses.route_services"]
  | RegistryMessage _ => []
  | UnregistryMessage _ => []
  end.

(** The status buckets of the response counters. *)
Definition buckets : list string := ["2xx"; "3xx"; "4xx"; "5xx"; "xxx"].

(** The sum of the counters [prefix ++ bucket] over all buckets. *)
Definition bucketSum (m : MetricsReporter) (prefix : string) : nat :=
  list_sum (List.map (fun b => counterValue m (prefix ++ b)) buckets).

Definition isRoutingRequest (c : ReporterCall) : bool :=
  match c with RoutingRequest _ => true | _ => false end.

Definition isRoutedAppRequest (c : ReporterCall) : bool :=
  match c with
  | RoutingRequest b =>
      match Tags b !! "component" with
      | Some componentName => HasPrefix componentName "dea-"
      | None => false
      end
  | _ => false
  end.

Definition isBadRequest (c : ReporterCall) : bool :=
  match c with BadRequest => true | _ => false end.

Definition isBadGateway (c : ReporterCall) : bool :=
  match c with BadGateway => true | _ => false end.

End MetricsSender.

(** ** proxy/proxy.go: the wrapped iterator *)

Module WrappedIterator.
Import GoStrings Http Route Metrics RoundTripper.

Section Wrapped.
Context {I S : Type}.

(** [wrappedIterator]: the nested iterator and the optional [afterNext]
    callback.  [I] is the nested iterator's state and [S] the state the
    callback works on; [Next] hands the callback a possibly nil endpoint.
    The callback is taken to return and to reach nothing of the nested
    iterator, as is the case for the one closure the proxy passes (in
    [ServeHTTP]) and for nil. *)
Record wrappedIterator := mkWrappedIterator {
  nested : EndpointIterator I;
  afterNext : option (option Endpoint -> S -> S)
}.

Definition wrappedNext (w : wrappedIterator) (st : I * S) : option Endpoint * (I * S) :=
  let '(e, i) := Next (nested w) (fst st) in
  match afterNext w with
  | Some f => (e, (i, f e (snd st)))
  | None => (e, (i, snd st))
  end.

Definition wrappedEndpointFailed (w : wrappedIterator) (st : I * S) : I * S :=
  (EndpointFailed (nested w) (fst st), snd st).

Definition wrappedPreRequest (w : wrappedIterator) (e : Endpoint) (st : I * S) : I * S :=
  (PreRequest (nested w) e (fst st), snd st).

Definition wrappedPostRequest (w : wrappedIterator) (e : Endpoint) (st : I * S) : I * S :=
  (PostRequest (nested w) e (fst st), snd st).

(** [wrappedIterator] implements [route.EndpointIterator]. *)
Definition asIterator (w : wrappedIterator) : EndpointIterator (I * S) :=
  {| Next := wrappedNext w;
     EndpointFailed := wrappedEndpointFailed w;
     PreRequest := wrappedPreRequest w;
     PostRequest := wrappedPostRequest w |}.

End Wrapped.

Arguments wrappedIterator : clear implicits.

(** [schema.AccessLogRecord], of which the iterator writes the field
    [RouteEndpoint]. *)
Record AccessLogRecord := mkAccessLogRecord {
  RouteEndpoint : option Endpoint
}.

(** What the closure built in [ServeHTTP] works on: the access-log record
    and the reporter [p.reporter], here with state [R] and its method
    [CaptureRoutingRequest]. *)
Record ServeState (R : Type) := mkServeState {
  accessLog : AccessLogRecord;
  reporter : R
}.
Arguments accessLog {R}.
Arguments reporter {R}.

(** The [afterNext] closure of [ServeHTTP]. *)
Definition serveAfterNext {R : Type} (captureRoutingRequest : R -> Endpoint -> R)
    (endpoint : option Endpoint) (s : ServeState R) : ServeState R :=
  match endpoint with
  | Some e =>
      {| accessLog := {| RouteEndpoint := Some e |};
         reporter := captureRoutingRequest (reporter s) e |}
  | None => s
  end.

(** The iterator [ServeHTTP] builds around [routePool.Endpoints(...)]. *)
Definition serveIterator {I R : Type} (endpoints : EndpointIterator I)
    (captureRoutingRequest : R -> Endpoint -> R)
  : wrappedIterator I (ServeState R) :=
  {| nested := endpoints;
     afterNext := Some (serveAfterNext captureRoutingRequest) |}.

(** A call on an iterator, and a run of calls: the endpoints the [Next]
    calls returned, in order, and the iterator's state after the run. *)
Inductive IteratorCall :=
| DoNext
| DoEndpointFailed
| DoPreRequest (e : Endpoint)
| DoPostRequest (e : Endpoint).

Fixpoint runCalls {X : Type} (it : EndpointIterator X) (cs : list IteratorCall) (x : X)
  : list (option Endpoint) * X :=
  match cs with
  | [] => ([], x)
  | DoNext :: cs' =>
      let '(e, x') := Next it x in
      let '(es, x'') := runCalls it cs' x' in
      (e :: es, x'')
  | DoEndpointFailed :: cs' => runCalls it cs' (EndpointFailed it x)
  | DoPreRequest e :: cs' => runCalls it cs' (PreRequest it e x)
  | DoPostRequest e :: cs' => runCalls it cs' (PostRequest it e x)
  end.

(** The endpoints among the results of [Next]. *)
Definition returned (results : list (option Endpoint)) : list Endpoint :=
  omap id results.

End WrappedIterator.

(** ** Further fixtures *)

Module MoreFixtures.
Import GoStrings Http Route Proxy Fixtures ProxyFixtures.

Definition withHost (r : Request) (host : string) : Request :=
  {| Method := Method r; ReqURL := ReqURL r; ReqHeader := ReqHeader r; Host := host;
     RequestURI := RequestURI r; TLS := TLS r; ReqCookies := ReqCookies r;
     ReqContext := ReqContext r |}.

Definition withCookies (r : Request) (cookies : list Cookie) : Request :=
  {| Method := Method r; ReqURL := ReqURL r; ReqHeader := ReqHeader r; Host := Host r;
     RequestURI := RequestURI r; TLS := TLS r; ReqCookies := cookies;
     ReqContext := ReqContext r |}.

(** Go's [int64] range, the range of a [time.Duration]. *)
Definition int64 (d : Z) : Prop := - 2 ^ 63 <= d < 2 ^ 63.

End MoreFixtures.

(** ** Reference definitions for the wrapped iterator *)

Module WrappedFixtures.
Import Http Route RoundTripper WrappedIterator.

(** The last endpoint of [es], or [before] when [es] is empty. *)
Fixpoint lastEndpoint (es : list Endpoint) (before : option Endpoint) : option Endpoint :=
  match es with
  | [] => before
  | e :: es' => lastEndpoint es' (Some e)
  end.

(** An iterator over a fixed list of endpoints that hands them out once, in
    order, and then returns none; its state is what is left. *)
Definition listIterator : EndpointIterator (list Endpoint) :=
  {| Next := fun l => match l with [] => (None, []) | e :: l' => (Some e, l') end;
     EndpointFailed := fun l => l;
     PreRequest := fun _ l => l;
     PostRequest := fun _ l => l |}.

End WrappedFixtures.

(** ** Replaying the round-tripper's calls on the iterator *)

Module IteratorReplay.
Import Http Route RoundTripper.

Section Replay.
Context {I : Type}.
Variable iterator : EndpointIterator I.


(** The iterator's state after an attempt on the endpoint [e] that [Next]
    returned together with state [i], the attempt having failed. *)
Definition afterFailure (e : Endpoint) (i : I) : I :=
  EndpointFailed iterator (PostRequest iterator e (PreRequest iterator e i)).

(** From state [i] on, [Next] yields an endpoint on each of [n] attempts in
    a row, every one of them but possibly the last being reported as
    failed. *)
Fixpoint yieldsFor (n : nat) (i : I) : Prop :=
  match n with
  | O => True
  | S n' =>
      exists e i', Next iterator i = (Some e, i') /\ yieldsFor n' (afterFailure e i')
  end.

End Replay.

End IteratorReplay.

(** ** Counting the response calls of a run *)

Module ResponseCalls.
Import GoStrings Http Route Metrics MetricsSender.

Definition isRoutingResponse (c : ReporterCall) : bool :=
  match c with RoutingResponse _ => true | _ => false end.

Definition isRouteServiceResponse (c : ReporterCall) : bool :=
  match c with RouteServiceResponse _ => true | _ => false end.

(** A [CaptureRoutingResponse] call whose response falls in [bucket]. *)
Definition isRoutingResponseIn (bucket : string) (c : ReporterCall) : bool :=
  match c with
  | RoutingResponse res => String.eqb (getResponseCounterName res) bucket
  | _ => false
  end.

(** A [CaptureRouteServiceResponse] call whose response falls in [bucket]. *)
Definition isRouteServiceResponseIn (bucket : string) (c : ReporterCall) : bool :=
  match c with
  | RouteServiceResponse res => String.eqb (getResponseCounterName res) bucket
  | _ => false
  end.

End ResponseCalls.

(** ** proxy/proxy.go: the director on requests that share memory *)

Module DirectorSharing.
Import GoStrings Http Route Proxy.

(** [source] and [target] are pointers.  Their [Header] fields are maps and
    their [URL] fields pointers, so either may be one object held by both
    requests, as after a shallow copy of the request. *)
Record Sharing := mkSharing {
  sameHeader : bool;
  sameURL : bool
}.

Section Shared.
Variable sh : Sharing.

(** A write through [target.Header]: it reaches [source] when the map is
    shared. *)
Definition writeTargetHeader (h : Header) (st : Request * Request) : Request * Request :=
  ((if sameHeader sh then withHeader (fst st) h else fst st), withHeader (snd st) h).

(** A write through [source.Header]. *)
Definition writeSourceHeader (h : Header) (st : Request * Request) : Request * Request :=
  (withHeader (fst st) h, (if sameHeader sh then withHeader (snd st) h else snd st)).

(** A write through [target.URL]. *)
Definition writeTargetURL (u : URL) (st : Request * Request) : Request * Request :=
  ((if sameURL sh then withURL (fst st) u else fst st), withURL (snd st) u).

(** The director, statement by statement, on the pair [(source, target)].
    With a shared header map the two [ReqHeader] fields are equal on entry
    and stay equal. *)
Definition setupProxyRequestShared (p : proxy) (nowMillis : Z) (source target : Request)
  : Request * Request :=
  let st := (source, target) in
  let st :=
    if forceForwardedProtoHttps p then
      writeTargetHeader (HeaderSet (ReqHeader (snd st)) "X-Forwarded-Proto" "https") st
    else if String.eqb (HeaderGet (ReqHeader (fst st)) "X-Forwarded-Proto") "" then
      let scheme := if TLS (fst st) then "https" else "http" in
      writeTargetHeader (HeaderSet (ReqHeader (snd st)) "X-Forwarded-Proto" scheme) st
    else st in
  let st :=
    writeTargetURL
      {| Scheme := "http";
         Opaque := RequestURI (fst st);
         UrlHost := Host (fst st);
         UrlPath := UrlPath (ReqURL (snd st));
         RawQuery := "" |} st in
  let st := writeSourceHeader (ReqHeader (SetRequestXRequestStart nowMillis (fst st))) st in
  writeTargetHeader (HeaderDel (ReqHeader (snd st)) CfAppInstance) st.

End Shared.

End DirectorSharing.

(** * Properties *)

(** ** The metrics reporter *)

Section MetricsFacts.
Import GoStrings Http Route Metrics Fixtures.

Lemma counterValue_increment (name other : string) (m : MetricsReporter) :
  counterValue (BatchIncrementCounter name m) other
  = (counterValue m other + if string_dec name other then 1 else 0)%nat.
Proof.
  unfold counterValue, BatchIncrementCounter; simpl.
  rewrite count_occ_app; simpl.
  destruct (string_dec name other); reflexivity.
Qed.

Lemma count_occ_cons_if (x y : string) (l : list string) :
  count_occ string_dec (x :: l) y
  = ((if string_dec x y then 1 else 0) + count_occ string_dec l y)%nat.
Proof. simpl. destruct (string_dec x y); reflexivity. Qed.

Lemma batcher_increment (name : string) (m : MetricsReporter) :
  batcher (BatchIncrementCounter name m) = (batcher m ++ [name])%list.
Proof. reflexivity. Qed.

(** A name built by [fmt.Sprintf] with a non-empty constant prefix differs
    from any constant that starts with another byte or is shorter. *)
Lemma append_neq_prefix (pre s other : string) :
  String.prefix pre other = false -> pre ++ s <> other.
Proof.
  revert other; induction pre as [|a pre IH]; intros other Hp.
  - destruct other; discriminate.
  - destruct other as [|b other]; [discriminate|].
    simpl in *. destruct (ascii_dec a b) as [->|Hab].
    + intros [= H]. exact (IH _ Hp H).
    + intros [= H _]. contradiction.
Qed.

Lemma append_neq_self (pre s : string) :
  s <> "" -> pre ++ s <> pre.
Proof.
  induction pre as [|a pre IH]; simpl; intros Hs H.
  - contradiction.
  - injection H as H. exact (IH Hs H).
Qed.

End MetricsFacts.

Section MetricsClaims.
Import GoStrings Http Route Metrics Fixtures.

Example CaptureBadGateway_fresh :
  batcher (CaptureBadGateway freshReporter) = ["bad_gateways"].
Proof. reflexivity. Qed.

(** C7, as the claim states it, fails: on the empty reporter
    [CaptureBadRequest] leaves the counter [bad_request] where it was and
    increments [rejected_requests]. *)
Lemma CaptureBadRequest_not_bad_request :
  batcher (CaptureBadRequest freshReporter) = ["rejected_requests"]
  /\ counterValue (CaptureBadRequest freshReporter) "bad_request"
     = counterValue freshReporter "bad_request".
Proof. split; reflexivity. Qed.

(** C7 (amended): every call of [CaptureBadRequest] increments the counter
    named [rejected_requests], once, and no other counter. *)
Theorem CaptureBadRequest_rejected_requests (m : MetricsReporter) :
  batcher (CaptureBadRequest m) = (batcher m ++ ["rejected_requests"])%list
  /\ counterValue (CaptureBadRequest m) "rejected_requests"
     = S (counterValue m "rejected_requests")
  /\ forall name, name <> "rejected_requests" ->
       counterValue (CaptureBadRequest m) name = counterValue m name.
Proof.
  unfold CaptureBadRequest. split; [reflexivity|]. split.
  - rewrite counterValue_increment.
    destruct (string_dec _ _); [lia | contradiction].
  - intros name Hne. rewrite counterValue_increment.
    destruct (string_dec _ _) as [E|_]; [symmetry in E; contradiction | lia].
Qed.

Lemma CaptureBadRequest_rejected_requests_witness :
  counterValue (CaptureBadRequest freshReporter) "bad_gateways"
  = counterValue freshReporter "bad_gateways".
Proof.
  apply (CaptureBadRequest_rejected_requests freshReporter).
  discriminate.
Defined.

Lemma CaptureRoutingRequest_batcher (m : MetricsReporter) (b : Endpoint) :
  batcher (CaptureRoutingRequest m b)
  = (batcher m ++ "total_requests" :: componentCounters (Tags b !! "component"))%list.
Proof.
  unfold CaptureRoutingRequest, componentCounters.
  destruct (Tags b !! "component") as [c|]; [|reflexivity].
  destruct c as [|a c]; [reflexivity|].
  cbn [String.length Nat.ltb Nat.leb String.eqb].
  destruct (HasPrefix (String a c) "dea-"); simpl;
    rewrite <- ?app_assoc; reflexivity.
Qed.

(** C8, as the claim states it, fails: an endpoint whose component tag is
    the empty string gets [total_requests] incremented and nothing else; the
    counter [requests.] for its tag stays where it was. *)
Lemma CaptureRoutingRequest_empty_component :
  Tags (endpointWithComponent "") !! "component" = Some ""
  /\ batcher (CaptureRoutingRequest freshReporter (endpointWithComponent ""))
     = ["total_requests"]
  /\ counterValue (CaptureRoutingRequest freshReporter (endpointWithComponent ""))
       ("requests." ++ "")
     = counterValue freshReporter ("requests." ++ "").
Proof. repeat split; reflexivity. Qed.

(** C8 (amended): for every endpoint [CaptureRoutingRequest] increments
    [total_requests]; when the endpoint's component tag is present and not
    empty it also increments [requests.<component>], and
    [routed_app_requests] when that tag starts with [dea-]; for an endpoint
    without a component tag, or with an empty one, it increments nothing
    else. *)
Theorem CaptureRoutingRequest_counters (m : MetricsReporter) (b : Endpoint) :
  counterValue (CaptureRoutingRequest m b) "total_requests"
  = S (counterValue m "total_requests")
  /\ (forall c, Tags b !! "component" = Some c -> c <> "" ->
        counterValue (CaptureRoutingRequest m b) ("requests." ++ c)
        = S (counterValue m ("requests." ++ c))
        /\ (HasPrefix c "dea-" = true ->
              counterValue (CaptureRoutingRequest m b) "routed_app_requests"
              = S (counterValue m "routed_app_requests")))
  /\ (Tags b !! "component" = None \/ Tags b !! "component" = Some "" ->
        batcher (CaptureRoutingRequest m b) = (batcher m ++ ["total_requests"])%list).
Proof.
  pose proof (CaptureRoutingRequest_batcher m b) as Hb.
  assert (Hcount : forall name,
            counterValue (CaptureRoutingRequest m b) name
            = (counterValue m name
               + count_occ string_dec
                   ("total_requests" :: componentCounters (Tags b !! "component"))
                   name)%nat).
  { intros name. unfold counterValue. rewrite Hb. apply count_occ_app. }
  assert (Hreq : forall c other,
            String.prefix "requests." other = false ->
            (if string_dec ("requests." ++ c) other then 1 else 0)%nat = 0%nat).
  { intros c other Hp. destruct (string_dec _ _) as [E|_]; [|reflexivity].
    exfalso. exact (append_neq_prefix "requests." c other Hp E). }
  assert (Hself : forall c,
            (if string_dec ("requests." ++ c) ("requests." ++ c) then 1 else 0)%nat
            = 1%nat).
  { intros c. destruct (string_dec _ _); [reflexivity | contradiction]. }
  split; [|split].
  - rewrite Hcount. unfold componentCounters.
    destruct (Tags b !! "component") as [c|]; [|simpl; lia].
    destruct (String.eqb c ""); [simpl; lia|].
    destruct (HasPrefix c "dea-");
      rewrite !count_occ_cons_if, (Hreq c "total_requests" eq_refl); simpl; lia.
  - intros c Hc Hne. rewrite Hc in Hcount. unfold componentCounters in Hcount.
    destruct (String.eqb_spec c "") as [E|_]; [contradiction|].
    split.
    + rewrite Hcount.
      destruct (HasPrefix c "dea-"); rewrite !count_occ_cons_if, Hself;
        repeat (destruct (string_dec _ _) as [E|_];
                [exfalso; symmetry in E;
                 exact (append_neq_prefix "requests." c _ eq_refl E)|]);
        simpl; lia.
    + intros Hdea. rewrite Hcount, Hdea.
      rewrite !count_occ_cons_if, (Hreq c "routed_app_requests" eq_refl).
      simpl; lia.
  - intros [Hn|He]; rewrite Hb; [rewrite Hn | rewrite He]; reflexivity.
Qed.

Lemma CaptureRoutingRequest_counters_witness :
  counterValue (CaptureRoutingRequest freshReporter (endpointWithComponent "dea-1"))
    ("requests." ++ "dea-1") = 1%nat
  /\ counterValue (CaptureRoutingRequest freshReporter (endpointWithComponent "dea-1"))
       "routed_app_requests" = 1%nat
  /\ batcher (CaptureRoutingRequest freshReporter (endpointWithComponent ""))
     = ["total_requests"].
Proof.
  destruct (CaptureRoutingRequest_counters freshReporter (endpointWithComponent "dea-1"))
    as (_ & Hc & _).
  destruct (Hc "dea-1" eq_refl ltac:(discriminate)) as [Hreq Hdea].
  split; [exact Hreq|]. split; [exact (Hdea eq_refl)|].
  apply (CaptureRoutingRequest_counters freshReporter (endpointWithComponent "")).
  right; reflexivity.
Defined.

End MetricsClaims.

Section ResponseCounters.
Import GoStrings Http Route Metrics Fixtures.

(** Go's truncating division by 100 lands in 2..5 exactly for the status
    codes 200..599. *)
Lemma quot_100_bucket (code : Z) :
  2 <= Z.quot code 100 <= 5 <-> 200 <= code <= 599.
Proof.
  pose proof (Z.quot_rem' code 100) as Hqr.
  pose proof (Z.rem_bound_abs code 100 ltac:(lia)) as Habs.
  destruct (Z_le_gt_dec 0 code) as [Hpos|Hneg].
  - pose proof (Z.rem_nonneg code 100 ltac:(lia) Hpos). lia.
  - pose proof (Z.rem_nonpos code 100 ltac:(lia) ltac:(lia)). lia.
Qed.

Lemma fmt_d_digit (n : Z) :
  2 <= n <= 5 -> fmt_d n = String (digit n) "".
Proof.
  intros H.
  assert (n = 2 \/ n = 3 \/ n = 4 \/ n = 5) as [-> | [-> | [-> | ->]]] by lia;
    reflexivity.
Qed.

Lemma getResponseCounterName_bucket (r : Response) :
  200 <= StatusCode r <= 599 ->
  getResponseCounterName (Some r) = String (digit (StatusCode r / 100)) "xx".
Proof.
  intros Hr. unfold getResponseCounterName.
  pose proof (proj2 (quot_100_bucket (StatusCode r)) Hr) as Hq.
  rewrite Z.quot_div_nonneg in * by lia.
  destruct (Z.leb_spec 2 (StatusCode r / 100)); [|lia].
  destruct (Z.leb_spec (StatusCode r / 100) 5); [|lia].
  simpl. rewrite fmt_d_digit by lia. reflexivity.
Qed.

Lemma getResponseCounterName_other (r : Response) :
  ~ (200 <= StatusCode r <= 599) -> getResponseCounterName (Some r) = "xxx".
Proof.
  intros Hr. unfold getResponseCounterName.
  pose proof (quot_100_bucket (StatusCode r)) as Hq.
  destruct (Z.leb_spec 2 (Z.quot (StatusCode r) 100));
    destruct (Z.leb_spec (Z.quot (StatusCode r) 100) 5);
    simpl; try reflexivity.
  exfalso. apply Hr, Hq. lia.
Qed.

Example CaptureRoutingResponse_404 :
  batcher (CaptureRoutingResponse freshReporter (Some (responseWithStatus 404)))
  = ["responses.4xx"; "responses"].
Proof. reflexivity. Qed.

Example CaptureRouteServiceResponse_nil :
  batcher (CaptureRouteServiceResponse freshReporter None)
  = ["responses.route_services.xxx"; "responses.route_services"].
Proof. reflexivity. Qed.

Example getResponseCounterName_negative :
  getResponseCounterName (Some (responseWithStatus (-250))) = "xxx".
Proof. reflexivity. Qed.

(** C9: [CaptureRoutingResponse] and [CaptureRouteServiceResponse] are
    defined on every input, the nil response included.  For a status code
    in 200..599 the bucket is [<N>xx] with [N] the code divided by 100; for
    any other status code and for a nil response it is [xxx].  Each call
    increments [responses.<bucket>] (respectively
    [responses.route_services.<bucket>]) once and the unqualified
    [responses] (respectively [responses.route_services]) once. *)
Theorem response_counters_total (m : MetricsReporter) (res : option Response) :
  (forall r, res = Some r -> 200 <= StatusCode r <= 599 ->
     getResponseCounterName res = String (digit (StatusCode r / 100)) "xx")
  /\ (forall r, res = Some r -> ~ (200 <= StatusCode r <= 599) ->
        getResponseCounterName res = "xxx")
  /\ (res = None -> getResponseCounterName res = "xxx")
  /\ batcher (CaptureRoutingResponse m res)
     = (batcher m ++ [("responses." ++ getResponseCounterName res)%string;
                      "responses"])%list
  /\ batcher (CaptureRouteServiceResponse m res)
     = (batcher m
        ++ [("responses.route_services." ++ getResponseCounterName res)%string;
            "responses.route_services"])%list
  /\ counterValue (CaptureRoutingResponse m res)
       ("responses." ++ getResponseCounterName res)
     = S (counterValue m ("responses." ++ getResponseCounterName res))
  /\ counterValue (CaptureRoutingResponse m res) "responses"
     = S (counterValue m "responses")
  /\ counterValue (CaptureRouteServiceResponse m res)
       ("responses.route_services." ++ getResponseCounterName res)
     = S (counterValue m ("responses.route_services." ++ getResponseCounterName res))
  /\ counterValue (CaptureRouteServiceResponse m res) "responses.route_services"
     = S (counterValue m "responses.route_services").
Proof.
  assert (Hcount : forall pre,
            String.prefix (pre ++ ".") pre = false ->
            let name := (pre ++ ".") ++ getResponseCounterName res in
            let m' := BatchIncrementCounter pre (BatchIncrementCounter name m) in
            counterValue m' name = S (counterValue m name)
            /\ counterValue m' pre = S (counterValue m pre)).
  { intros pre Hpre name m'. unfold m'.
    assert (Hne : name <> pre) by (apply append_neq_prefix; exact Hpre).
    rewrite !counterValue_increment.
    destruct (string_dec pre name) as [E|_]; [symmetry in E; contradiction|].
    destruct (string_dec name name) as [_|N]; [|contradiction].
    destruct (string_dec pre pre) as [_|N]; [|contradiction].
    destruct (string_dec name pre) as [E|_]; [contradiction|].
    split; lia. }
  repeat split.
  - intros r -> Hr. apply getResponseCounterName_bucket, Hr.
  - intros r -> Hr. apply getResponseCounterName_other, Hr.
  - intros ->. reflexivity.
  - unfold CaptureRoutingResponse. rewrite !batcher_increment, <- app_assoc.
    reflexivity.
  - unfold CaptureRouteServiceResponse. rewrite !batcher_increment, <- app_assoc.
    reflexivity.
  - apply (Hcount "responses" eq_refl).
  - apply (Hcount "responses" eq_refl).
  - apply (Hcount "responses.route_services" eq_refl).
  - apply (Hcount "responses.route_services" eq_refl).
Qed.

Lemma response_counters_total_witness :
  getResponseCounterName (Some (responseWithStatus 503)) = "5xx"
  /\ getResponseCounterName (Some (responseWithStatus 102)) = "xxx"
  /\ getResponseCounterName None = "xxx".
Proof.
  split; [|split].
  - destruct (response_counters_total freshReporter (Some (responseWithStatus 503)))
      as (Hin & _).
    apply (Hin (responseWithStatus 503) eq_refl). simpl; lia.
  - destruct (response_counters_total freshReporter (Some (responseWithStatus 102)))
      as (_ & Hout & _).
    apply (Hout (responseWithStatus 102) eq_refl). simpl; lia.
  - destruct (response_counters_total freshReporter None) as (_ & _ & Hnil & _).
    apply Hnil. reflexivity.
Defined.

End ResponseCounters.

(** ** proxy.go: the host without its port *)

Section HostWithoutPort.
Import GoStrings Http Route Proxy Fixtures.

Lemma prefix_colon (a : ascii) (s : string) :
  String.prefix ":" (String a s) = Ascii.eqb a ":".
Proof.
  cbn [String.prefix].
  destruct (ascii_dec ":" a) as [E | N]; destruct (Ascii.eqb_spec a ":") as [E' | N'];
    try reflexivity; try congruence.
  all: destruct s; reflexivity.
Qed.

Lemma append_cons (a : ascii) (s t : string) :
  String a s ++ t = String a (s ++ t).
Proof. reflexivity. Qed.

Lemma indexFrom_absent (s : string) (i : nat) :
  occursIn ":" s = false -> indexFrom i s ":" = None.
Proof.
  revert i; induction s as [|a s IH]; intros i H; [reflexivity|].
  cbn [occursIn] in H. apply orb_false_iff in H as [Ha Hs].
  cbn [indexFrom]. rewrite prefix_colon, Ha. apply IH, Hs.
Qed.

Lemma indexFrom_first (pre rest : string) (i : nat) :
  occursIn ":" pre = false ->
  indexFrom i (pre ++ String ":" rest) ":" = Some (i + String.length pre)%nat.
Proof.
  revert i; induction pre as [|a pre IH]; intros i H.
  - change ("" ++ String ":" rest) with (String ":" rest).
    cbn [indexFrom String.length].
    rewrite prefix_colon, Ascii.eqb_refl. f_equal. lia.
  - cbn [occursIn] in H. apply orb_false_iff in H as [Ha Hs].
    rewrite append_cons. cbn [indexFrom String.length].
    rewrite prefix_colon, Ha, IH by exact Hs. f_equal. lia.
Qed.

Lemma substring_prefix (pre rest : string) :
  substring 0 (String.length pre) (pre ++ rest) = pre.
Proof.
  induction pre as [|a pre IH].
  - destruct rest; reflexivity.
  - rewrite append_cons. cbn [String.length substring]. rewrite IH. reflexivity.
Qed.

Example hostWithoutPort_plain :
  hostWithoutPort (requestTo "myapp.com:8080" ∅) = "myapp.com".
Proof. reflexivity. Qed.

(** C10: [hostWithoutPort] returns the [Host] cut at its first colon, and
    the [Host] itself when it holds no colon; for the bracketed IPv6 literal
    [[::1]:8080] that is the one byte before the first colon, and the route
    lookup is keyed by it. *)
Theorem hostWithoutPort_first_colon (req : Request) :
  (occursIn ":" (Host req) = false -> hostWithoutPort req = Host req)
  /\ (forall pre rest,
        Host req = pre ++ String ":" rest -> occursIn ":" pre = false ->
        hostWithoutPort req = pre)
  /\ (Host req = "[::1]:8080" ->
        hostWithoutPort req = "[" /\ fst (lookupKey req) = "[").
Proof.
  unfold lookupKey, hostWithoutPort, Index, sliceTo; simpl.
  split; [|split].
  - intros H. rewrite (indexFrom_absent _ 0 H). reflexivity.
  - intros pre rest -> H. rewrite (indexFrom_first pre rest 0 H).
    simpl. rewrite Nat2Z.id.
    destruct (Z.leb_spec 0 (Z.of_nat (String.length pre))); [|lia].
    apply substring_prefix.
  - intros ->. split; reflexivity.
Qed.

Lemma hostWithoutPort_first_colon_witness :
  hostWithoutPort (requestTo "localhost" ∅) = "localhost"
  /\ hostWithoutPort (requestTo "myapp.com:80" ∅) = "myapp.com"
  /\ hostWithoutPort (requestTo "[::1]:8080" ∅) = "[".
Proof.
  split; [|split].
  - destruct (hostWithoutPort_first_colon (requestTo "localhost" ∅)) as (Hnone & _).
    apply Hnone. reflexivity.
  - destruct (hostWithoutPort_first_colon (requestTo "myapp.com:80" ∅))
      as (_ & Hcut & _).
    apply (Hcut "myapp.com" "80"); reflexivity.
  - destruct (hostWithoutPort_first_colon (requestTo "[::1]:8080" ∅))
      as (_ & _ & Hv6).
    apply Hv6. reflexivity.
Defined.

End HostWithoutPort.

(** ** proxy.go: sticky sessions *)

Section StickySession.
Import GoStrings Http Route Proxy Fixtures ProxyFixtures.

(** The loop stops at the first [JSESSIONID] cookie and otherwise leaves its
    state alone. *)
Lemma scanStickyCookie_find (cookies : list Cookie) (sticky : bool) (maxAge : Z)
    (secure : bool) :
  scanStickyCookie cookies (sticky, maxAge, secure)
  = match List.find (fun c => String.eqb (Name c) StickyCookieKey) cookies with
    | Some j => (true, (if MaxAge j <? 0 then MaxAge j else maxAge), Secure j)
    | None => (sticky, maxAge, secure)
    end.
Proof.
  induction cookies as [|v rest IH]; [reflexivity|].
  cbn [scanStickyCookie List.find].
  destruct (String.eqb (Name v) StickyCookieKey); [reflexivity | exact IH].
Qed.

Lemma upstreamStickyCookie_carried (response : Response) :
  is_Some (upstreamStickyCookie response)
  <-> exists c, In c (RespCookies response) /\ Name c = StickyCookieKey.
Proof.
  unfold upstreamStickyCookie. split.
  - intros [j Hj]. apply List.find_some in Hj as [Hin Hname].
    exists j. split; [exact Hin | apply String.eqb_eq, Hname].
  - intros (c & Hin & Hname).
    destruct (List.find _ _) as [j|] eqn:Hfind; [eauto|].
    pose proof (List.find_none _ _ Hfind c Hin) as Hc. simpl in Hc.
    rewrite Hname, String.eqb_refl in Hc. discriminate.
Qed.

Lemma endpointChanged_bool (originalEndpointId : string) (endpoint : Endpoint) :
  negb (String.eqb originalEndpointId "")
  && negb (String.eqb originalEndpointId (PrivateInstanceId endpoint)) = true
  <-> endpointChanged originalEndpointId endpoint.
Proof.
  unfold endpointChanged.
  rewrite andb_true_iff, !negb_true_iff, !String.eqb_neq. reflexivity.
Qed.

Example setupStickySession_session_cookie :
  SetCookies (setupStickySession proxyWriter
                (responseWithCookies [cookie "other" "x" 5 true;
                                      cookie "JSESSIONID" "abc" (-1) false;
                                      cookie "JSESSIONID" "def" 7 true])
                (endpointWithInstance "id-2") "" false "/app")
  = [ {| Name := "__VCAP_ID__"; Value := "id-2"; Path := "/app"; MaxAge := -1;
         Secure := false; HttpOnly := true |} ].
Proof. reflexivity. Qed.

Example setupStickySession_same_endpoint :
  setupStickySession proxyWriter (responseWithCookies [])
    (endpointWithInstance "id-2") "id-2" true "/" = proxyWriter.
Proof. reflexivity. Qed.

(** C4: [setupStickySession] writes a [__VCAP_ID__] cookie if and only if
    the upstream response carries a [JSESSIONID] cookie or a non-empty
    preferred identifier differs from the chosen endpoint's private instance
    identifier.  The cookie written has the chosen endpoint's private
    instance identifier as its value, [HttpOnly] set, the given path, the
    upstream [JSESSIONID] cookie's [MaxAge] when that is negative and 0
    otherwise, and [Secure] set exactly when the upstream [JSESSIONID]
    cookie is secure or [secureCookies] is true. *)
Theorem setupStickySession_cookie (responseWriter : ResponseWriter)
    (response : Response) (endpoint : Endpoint) (originalEndpointId : string)
    (secureCookies : bool) (path : string) :
  let written :=
    setupStickySession responseWriter response endpoint originalEndpointId
      secureCookies path in
  let carried := exists c, In c (RespCookies response) /\ Name c = "JSESSIONID" in
  let changed := endpointChanged originalEndpointId endpoint in
  (carried \/ changed ->
     exists c,
       SetCookies written = (SetCookies responseWriter ++ [c])%list
       /\ Name c = "__VCAP_ID__"
       /\ Value c = PrivateInstanceId endpoint
       /\ HttpOnly c = true
       /\ Path c = path
       /\ MaxAge c = match upstreamStickyCookie response with
                     | Some j => if MaxAge j <? 0 then MaxAge j else 0
                     | None => 0
                     end
       /\ (Secure c = true
           <-> (exists j, upstreamStickyCookie response = Some j /\ Secure j = true)
               \/ secureCookies = true))
  /\ (~ (carried \/ changed) -> written = responseWriter).
Proof.
  intros written carried changed.
  pose proof (upstreamStickyCookie_carried response) as Hcarried.
  pose proof (endpointChanged_bool originalEndpointId endpoint) as Hchanged.
  unfold written, setupStickySession. rewrite scanStickyCookie_find.
  fold (upstreamStickyCookie response).
  fold (upstreamStickyCookie response) in Hcarried.
  destruct (upstreamStickyCookie response) as [j|] eqn:Hj.
  - split.
    + intros _. eexists. split; [reflexivity|]. cbn.
      repeat split; try reflexivity.
      * destruct secureCookies; [auto|].
        intros Hs. left. exists j. split; [reflexivity | exact Hs].
      * intros [(j' & [= <-] & Hs) | ->]; [|reflexivity].
        rewrite Hs. destruct secureCookies; reflexivity.
    + intros Hno. exfalso. apply Hno. left. apply Hcarried. eauto.
  - destruct (negb (String.eqb originalEndpointId "")
              && negb (String.eqb originalEndpointId (PrivateInstanceId endpoint)))
      eqn:Hb.
    + split.
      * intros _. eexists. split; [reflexivity|]. cbn.
        repeat split; try reflexivity.
        -- destruct secureCookies; [auto | discriminate].
        -- intros [(j' & [=] & _) | ->]. reflexivity.
      * intros Hno. exfalso. apply Hno. right. apply Hchanged. reflexivity.
    + split.
      * intros [Hc | Hc].
        -- apply Hcarried in Hc as [j' [=]].
        -- apply Hchanged in Hc. discriminate.
      * reflexivity.
Qed.

Lemma setupStickySession_cookie_witness :
  (exists c,
     SetCookies (setupStickySession proxyWriter
                   (responseWithCookies [cookie "JSESSIONID" "abc" (-1) true])
                   (endpointWithInstance "id-2") "id-1" false "/")
     = [c] /\ Value c = "id-2" /\ MaxAge c = -1)
  /\ setupStickySession proxyWriter (responseWithCookies [])
       (endpointWithInstance "id-2") "" true "/" = proxyWriter.
Proof.
  split.
  - destruct (setupStickySession_cookie proxyWriter
                (responseWithCookies [cookie "JSESSIONID" "abc" (-1) true])
                (endpointWithInstance "id-2") "id-1" false "/") as [Hw _].
    destruct Hw as (c & Hset & _ & Hval & _ & _ & Hage & _).
    + right. split; discriminate.
    + exists c. split; [exact Hset|]. split; [exact Hval | exact Hage].
  - destruct (setupStickySession_cookie proxyWriter (responseWithCookies [])
                (endpointWithInstance "id-2") "" true "/") as [_ Hn].
    apply Hn. intros [(c & [] & _) | [Hne _]]. apply Hne. reflexivity.
Defined.

End StickySession.

(** ** proxy.go: dispatch on the upgrade headers *)

Section Dispatching.
Import GoStrings Http Route Proxy Fixtures ProxyFixtures.

Variable ToLower : string -> string.

Lemma upgradeHeaderLoop_found (request : Request) (values : list string) :
  (exists v, In v values /\ Contains (ToLower v) "upgrade" = true) ->
  upgradeHeaderLoop ToLower request values = HeaderGet (ReqHeader request) "Upgrade".
Proof.
  induction values as [|v rest IH]; intros (v' & Hin & Hv'); [destruct Hin|].
  cbn [upgradeHeaderLoop].
  destruct (Contains (ToLower v) "upgrade") eqn:Hv; [reflexivity|].
  apply IH. destruct Hin as [-> | Hin]; [congruence | eauto].
Qed.

Lemma upgradeHeaderLoop_missing (request : Request) (values : list string) :
  ~ (exists v, In v values /\ Contains (ToLower v) "upgrade" = true) ->
  upgradeHeaderLoop ToLower request values = "".
Proof.
  induction values as [|v rest IH]; intros Hno; [reflexivity|].
  cbn [upgradeHeaderLoop].
  destruct (Contains (ToLower v) "upgrade") eqn:Hv.
  - exfalso. apply Hno. exists v. split; [left; reflexivity | exact Hv].
  - apply IH. intros (v' & Hin & Hv'). apply Hno. exists v'. split; [right|]; assumption.
Qed.

Lemma connectionHasUpgrade_dec (request : Request) :
  connectionHasUpgrade ToLower request \/ ~ connectionHasUpgrade ToLower request.
Proof.
  unfold connectionHasUpgrade.
  generalize (default [] (ReqHeader request !! CanonicalHeaderKey "Connection")).
  induction l as [|v rest [IH | IH]].
  - right. intros (v & [] & _).
  - left. destruct IH as (v' & Hin & Hv'). exists v'. split; [right|]; assumption.
  - destruct (Contains (ToLower v) "upgrade") eqn:Hv.
    + left. exists v. split; [left; reflexivity | exact Hv].
    + right. intros (v' & [-> | Hin] & Hv'); [congruence|].
      apply IH. eauto.
Qed.

Lemma upgradeHeader_spec (request : Request) :
  (connectionHasUpgrade ToLower request ->
     upgradeHeader ToLower request = HeaderGet (ReqHeader request) "Upgrade")
  /\ (~ connectionHasUpgrade ToLower request -> upgradeHeader ToLower request = "").
Proof.
  unfold upgradeHeader, connectionHasUpgrade. split; intros H.
  - apply upgradeHeaderLoop_found, H.
  - apply upgradeHeaderLoop_missing, H.
Qed.

End Dispatching.

Section DispatchClaims.
Import GoStrings Http Route Proxy Fixtures ProxyFixtures.

Example ServeHTTP_tcp :
  ServeHTTP asciiToLower defaultProxy proxyWriter
    (requestTo "myapp.com"
       {[ "Connection" := ["keep-alive, Upgrade"]; "Upgrade" := ["tcp"] ]})
  = HandleTcpRequest
      {| iterPool := []; iterLoadBalance := "round-robin"; iterStickyEndpointId := "" |}.
Proof. reflexivity. Qed.

Example ServeHTTP_websocket :
  ServeHTTP asciiToLower defaultProxy proxyWriter
    (requestTo "myapp.com"
       {[ "Connection" := ["keep-alive"; "UpGrade"]; "Upgrade" := ["WebSocket"] ]})
  = HandleWebSocketRequest
      {| iterPool := []; iterLoadBalance := "round-robin"; iterStickyEndpointId := "" |}.
Proof. reflexivity. Qed.

(** C5, as the claim states it, fails: a request whose [Upgrade] header is
    [websocket] and which has no [Connection] header is not a TCP upgrade,
    yet it is handed to the next handler, not to the WebSocket path. *)
Lemma ServeHTTP_websocket_without_connection :
  let request := requestTo "myapp.com" {[ "Upgrade" := ["websocket"] ]} in
  asciiToLower (HeaderGet (ReqHeader request) "Upgrade") = "websocket"
  /\ HeaderGet (ReqHeader request) "Upgrade" <> "tcp"
  /\ ServeHTTP asciiToLower defaultProxy proxyWriter request = NextHandler.
Proof.
  cbv zeta. split; [reflexivity|]. split; [discriminate | reflexivity].
Qed.

(** C5 (amended): a request that reaches the branch (the writer is the
    proxy's own, the access-log record and the route pool are on the
    context) is handed to the TCP tunnel path exactly when some value of the
    [Connection] header contains [upgrade] once lowered and the [Upgrade]
    header equals [tcp]; otherwise to the WebSocket path exactly when some
    value of the [Connection] header contains [upgrade] once lowered and
    the lowered [Upgrade] header equals [websocket]; otherwise to the next
    handler, the reverse proxy.  [ToLower] is Go's [strings.ToLower], of which
    only [ToLower "" = ""] is used. *)
Theorem ServeHTTP_dispatch (ToLower : string -> string) (p : proxy)
    (responseWriter : ResponseWriter) (request : Request)
    (accessLog : string) (routePool : list string) :
  ToLower "" = "" ->
  IsProxyResponseWriter responseWriter = true ->
  ReqContext request !! "AccessLogRecord" = Some (AccessLogRecordValue accessLog) ->
  ReqContext request !! "RoutePool" = Some (RoutePoolValue routePool) ->
  let iter := {| iterPool := routePool;
                 iterLoadBalance := defaultLoadBalance p;
                 iterStickyEndpointId := getStickySession request |} in
  let tcp := connectionHasUpgrade ToLower request
             /\ HeaderGet (ReqHeader request) "Upgrade" = "tcp" in
  let websocket := connectionHasUpgrade ToLower request
                   /\ ToLower (HeaderGet (ReqHeader request) "Upgrade") = "websocket" in
  (ServeHTTP ToLower p responseWriter request = HandleTcpRequest iter <-> tcp)
  /\ (ServeHTTP ToLower p responseWriter request = HandleWebSocketRequest iter
      <-> ~ tcp /\ websocket)
  /\ (ServeHTTP ToLower p responseWriter request = NextHandler
      <-> ~ tcp /\ ~ websocket).
Proof.
  intros Hempty Hw Halr Hpool iter tcp websocket.
  unfold ServeHTTP. rewrite Hw, Halr, Hpool. cbn [negb]. fold iter.
  unfold isTcpUpgrade, isWebSocketUpgrade.
  destruct (upgradeHeader_spec ToLower request) as [Hyes Hno].
  destruct (connectionHasUpgrade_dec ToLower request) as [Hc | Hc].
  - rewrite (Hyes Hc).
    destruct (String.eqb_spec (HeaderGet (ReqHeader request) "Upgrade") "tcp") as [Et | Et].
    + assert (tcp) by (split; assumption).
      repeat split; try tauto; try discriminate.
    + assert (~ tcp) by (intros [_ ?]; contradiction).
      destruct (String.eqb_spec (ToLower (HeaderGet (ReqHeader request) "Upgrade"))
                  "websocket") as [Ews | Ews].
      * assert (websocket) by (split; assumption).
        repeat split; try tauto; try discriminate.
      * assert (~ websocket) by (intros [_ ?]; contradiction).
        repeat split; try tauto; try discriminate.
  - rewrite (Hno Hc).
    assert (~ tcp) by (intros [? _]; contradiction).
    assert (~ websocket) by (intros [? _]; contradiction).
    rewrite Hempty. cbn [String.eqb].
    repeat split; try tauto; try discriminate.
Qed.

Lemma ServeHTTP_dispatch_witness :
  let request :=
    requestTo "myapp.com"
      {[ "Connection" := ["Upgrade"]; "Upgrade" := ["websocket"] ]} in
  ServeHTTP asciiToLower defaultProxy proxyWriter request
  = HandleWebSocketRequest
      {| iterPool := []; iterLoadBalance := "round-robin"; iterStickyEndpointId := "" |}
  <-> ~ (connectionHasUpgrade asciiToLower request
         /\ HeaderGet (ReqHeader request) "Upgrade" = "tcp")
      /\ (connectionHasUpgrade asciiToLower request
          /\ asciiToLower (HeaderGet (ReqHeader request) "Upgrade") = "websocket").
Proof.
  intros request.
  apply (ServeHTTP_dispatch asciiToLower defaultProxy proxyWriter request "" []);
    reflexivity.
Defined.

End DispatchClaims.

(** ** proxy.go: the director *)

Section Director.
Import GoStrings Http Route Proxy Fixtures ProxyFixtures.

Example canonical_keys :
  CanonicalHeaderKey "X-Forwarded-Proto" = "X-Forwarded-Proto"
  /\ CanonicalHeaderKey CfAppInstance = "X-Cf-App-Instance"
  /\ CanonicalHeaderKey "X-CF-APP-INSTANCE" = "X-Cf-App-Instance"
  /\ CanonicalHeaderKey "connection" = "Connection".
Proof. repeat split; reflexivity. Qed.

Lemma HeaderGet_Set (h : Header) (key value : string) :
  HeaderGet (HeaderSet h key value) key = value.
Proof. unfold HeaderGet, HeaderSet. rewrite lookup_insert_eq. reflexivity. Qed.

Lemma HeaderGet_Del_other (h : Header) (key other : string) :
  CanonicalHeaderKey key <> CanonicalHeaderKey other ->
  HeaderGet (HeaderDel h key) other = HeaderGet h other.
Proof.
  intros Hne. unfold HeaderGet, HeaderDel.
  rewrite lookup_delete_ne by exact Hne. reflexivity.
Qed.

Lemma HeaderGet_Del (h : Header) (key other : string) :
  CanonicalHeaderKey other = CanonicalHeaderKey key ->
  HeaderGet (HeaderDel h key) other = "".
Proof.
  intros He. unfold HeaderGet, HeaderDel.
  rewrite He, lookup_delete_eq. reflexivity.
Qed.

Example setupProxyRequest_tls :
  let source :=
    {| Method := "GET"; ReqURL := emptyURL; ReqHeader := ∅; Host := "myapp.com:443";
       RequestURI := "/a%2Fb?x=1"; TLS := true; ReqCookies := [];
       ReqContext := ∅ |} in
  let target := withHeader source {[ "X-Cf-App-Instance" := ["guid:1"] ]} in
  snd (setupProxyRequest defaultProxy 1500000000000 source target)
  = {| Method := "GET";
       ReqURL := {| Scheme := "http"; Opaque := "/a%2Fb?x=1";
                    UrlHost := "myapp.com:443"; UrlPath := "/"; RawQuery := "" |};
       ReqHeader := {[ "X-Forwarded-Proto" := ["https"] ]};
       Host := "myapp.com:443"; RequestURI := "/a%2Fb?x=1"; TLS := true;
       ReqCookies := []; ReqContext := ∅ |}.
Proof. vm_compute. reflexivity. Qed.

(** C6: after the director has run, [X-Forwarded-Proto] on the target is
    [https] when [forceForwardedProtoHttps] is configured; else, when the
    source request has no such header ([Get] returns the empty string, as
    it does for an absent header), it is [https] for a TLS connection and
    [http] otherwise; else the target's entry is the one it had.  The target URL has scheme [http], the source's
    [Host] as host, the source's [RequestURI] as opaque part and an empty
    raw query, and the target carries no [X-CF-App-Instance] header under
    any spelling of that name. *)
Theorem setupProxyRequest_target (p : proxy) (nowMillis : Z) (source target : Request) :
  let target' := snd (setupProxyRequest p nowMillis source target) in
  (forceForwardedProtoHttps p = true ->
     HeaderGet (ReqHeader target') "X-Forwarded-Proto" = "https")
  /\ (forceForwardedProtoHttps p = false ->
      HeaderGet (ReqHeader source) "X-Forwarded-Proto" = "" ->
      HeaderGet (ReqHeader target') "X-Forwarded-Proto"
      = if TLS source then "https" else "http")
  /\ (ReqHeader source !! CanonicalHeaderKey "X-Forwarded-Proto" = None ->
      HeaderGet (ReqHeader source) "X-Forwarded-Proto" = "")
  /\ (forceForwardedProtoHttps p = false ->
      HeaderGet (ReqHeader source) "X-Forwarded-Proto" <> "" ->
      ReqHeader target' !! CanonicalHeaderKey "X-Forwarded-Proto"
      = ReqHeader target !! CanonicalHeaderKey "X-Forwarded-Proto")
  /\ Scheme (ReqURL target') = "http"
  /\ UrlHost (ReqURL target') = Host source
  /\ Opaque (ReqURL target') = RequestURI source
  /\ RawQuery (ReqURL target') = ""
  /\ ReqHeader target' !! CanonicalHeaderKey "X-CF-App-Instance" = None
  /\ (forall key,
        CanonicalHeaderKey key = CanonicalHeaderKey "X-CF-App-Instance" ->
        HeaderGet (ReqHeader target') key = "").
Proof.
  assert (Hkeys : CanonicalHeaderKey CfAppInstance
                  <> CanonicalHeaderKey "X-Forwarded-Proto") by discriminate.
  intros target'. subst target'. unfold setupProxyRequest. cbn [snd].
  split; [|split; [|split; [|split]]].
  - intros ->. cbn [withURL withHeader ReqHeader].
    rewrite HeaderGet_Del_other by exact Hkeys. apply HeaderGet_Set.
  - intros -> ->. cbn [String.eqb withURL withHeader ReqHeader].
    rewrite HeaderGet_Del_other by exact Hkeys. apply HeaderGet_Set.
  - intros Habsent. unfold HeaderGet. rewrite Habsent. reflexivity.
  - intros -> Hne. apply String.eqb_neq in Hne. rewrite Hne.
    cbn [withURL withHeader ReqHeader]. unfold HeaderDel.
    apply lookup_delete_ne, Hkeys.
  - repeat split.
    + unfold withHeader, withURL, HeaderDel. cbn [ReqHeader].
      apply lookup_delete_eq.
    + intros key Hkey. unfold withHeader at 1. cbn [ReqHeader].
      apply HeaderGet_Del. exact Hkey.
Qed.

Lemma setupProxyRequest_target_witness :
  let source := requestTo "myapp.com" ∅ in
  let target := requestTo "myapp.com" {[ "X-Forwarded-Proto" := ["ftp"] ]} in
  HeaderGet (ReqHeader (snd (setupProxyRequest defaultProxy 0 source target)))
    "X-Forwarded-Proto" = "http"
  /\ ReqHeader (snd (setupProxyRequest defaultProxy 0 target target))
       !! CanonicalHeaderKey "X-Forwarded-Proto"
     = Some ["ftp"]
  /\ HeaderGet (ReqHeader (snd (setupProxyRequest defaultProxy 0 source target)))
       "x-cf-app-instance" = "".
Proof.
  intros source target. split; [|split].
  - destruct (setupProxyRequest_target defaultProxy 0 source target)
      as (_ & Hset & _).
    apply Hset; reflexivity.
  - destruct (setupProxyRequest_target defaultProxy 0 target target)
      as (_ & _ & _ & Hkeep & _).
    rewrite Hkeep; [reflexivity | reflexivity | discriminate].
  - destruct (setupProxyRequest_target defaultProxy 0 source target)
      as (_ & _ & _ & _ & _ & _ & _ & _ & _ & Hdel).
    apply Hdel. reflexivity.
Defined.

End Director.

(** ** The retrying round-tripper *)

Section RetryLoop.
Import GoStrings Http Route RoundTripper Fixtures ProxyFixtures RoundTripperFixtures.
Import IteratorReplay.

Context {I T : Type}.
Variable iterator : EndpointIterator I.
Variable transport : Transport T.

Lemma NextCallCount_app (made more : list Call) :
  NextCallCount (made ++ more) = (NextCallCount made + NextCallCount more)%nat.
Proof. unfold NextCallCount. rewrite List.filter_app, length_app. reflexivity. Qed.



Lemma afterAttempt_NextCallCount (st : State I T) (e : Endpoint) (i : I) (t : T)
    (failed : bool) :
  NextCallCount (calls (afterAttempt iterator st e i t failed))
  = S (NextCallCount (calls st)).
Proof.
  unfold afterAttempt. cbn [calls]. rewrite !NextCallCount_app.
  destruct failed; cbn; lia.
Qed.





(** The route-service loop leaves the iterator and the request alone and
    only ever calls the transport, with the request it was given. *)
Lemma routeServiceLoop_frame (k : nat) :
  forall (last : Outcome) (st : State I T),
    let st' := snd (routeServiceLoop transport k last st) in
    iter st' = iter st
    /\ request st' = request st
    /\ exists made,
         calls st' = (calls st ++ made)%list
         /\ (length made <= k)%nat
         /\ Forall (routeServiceCall (request st)) made.
Proof.
  induction k as [|k IH]; intros last st; cbn zeta.
  - cbn [routeServiceLoop snd]. repeat split.
    exists []. rewrite app_nil_r. repeat split; [simpl; lia | constructor].
  - cbn [routeServiceLoop]. unfold callTransport.
    destruct (transportRoundTrip transport (trans st) (request st)) as [out t].
    set (st1 := {| iter := iter st; trans := t; request := request st;
                   calls := calls st ++ [CallTransport (request st)] |}).
    assert (Hone : iter st1 = iter st /\ request st1 = request st
                   /\ exists made,
                        calls st1 = (calls st ++ made)%list
                        /\ (length made <= S k)%nat
                        /\ Forall (routeServiceCall (request st)) made).
    { repeat split. exists [CallTransport (request st)].
      repeat split; [simpl; lia | repeat constructor]. }
    destruct (snd out) as [err|]; [|exact Hone].
    destruct (retriableError err); [|exact Hone].
    destruct (IH out st1) as (Hi & Hr & made & Hcalls & Hlen & Hall).
    split; [exact Hi|]. split; [exact Hr|].
    exists (CallTransport (request st) :: made).
    split; [|split].
    + rewrite Hcalls. unfold st1. cbn [calls]. rewrite <- app_assoc. reflexivity.
    + simpl; lia.
    + constructor; [reflexivity | exact Hall].
Qed.

End RetryLoop.

Section RoundTripClaims.
Import GoStrings Http Route RoundTripper Fixtures ProxyFixtures RoundTripperFixtures.
Import IteratorReplay.

Example retriableError_cases :
  retriableError dialError = true
  /\ retriableError connResetError = true
  /\ retriableError (OpError "read" (OtherCause "timeout")) = false
  /\ retriableError (OpError "write" ECONNRESET) = false
  /\ retriableError NoEndpointsAvailable = false.
Proof. repeat split; reflexivity. Qed.

(** The scenarios of the round-tripper's tests, run on the fakes. *)
Example RoundTrip_dial_error :
  let '(out, st) :=
    RoundTrip (fakeIterator (Some backendEndpoint)) (alwaysFailing dialError)
      backendRoundTripper startState in
  out = (None, Some dialError)
  /\ nextCallCount (iter st) = 3%nat
  /\ endpointFailedCallCount (iter st) = 3%nat
  /\ NextCallCount (calls st) = 3%nat.
Proof. vm_compute. repeat split; reflexivity. Qed.

Example RoundTrip_first_call_fails :
  let '(out, st) :=
    RoundTrip (fakeIterator (Some backendEndpoint))
      (firstCallFailing (Some (responseWithStatus 200)))
      backendRoundTripper startState in
  out = (Some (responseWithStatus 200), None)
  /\ nextCallCount (iter st) = 2%nat
  /\ endpointFailedCallCount (iter st) = 1%nat
  /\ UrlHost (ReqURL (request st)) = "host:2222".
Proof. vm_compute. repeat split; reflexivity. Qed.

Example RoundTrip_route_service_retry :
  let '(out, st) :=
    RoundTrip (fakeIterator (Some routeServiceTarget))
      (firstCallFailing (Some (responseWithStatus 200)))
      routeServiceRoundTripper startState in
  out = (Some (responseWithStatus 200), None)
  /\ nextCallCount (iter st) = 0%nat
  /\ HeaderGet (ReqHeader (request st)) RouteServiceForwardedURL = "http://myapp.com/"
  /\ calls st = [CallTransport testRequest; CallTransport testRequest;
                 CallAfterRoundTrip (Some (responseWithStatus 200)) routeServiceTarget
                   None].
Proof. vm_compute. repeat split; reflexivity. Qed.

(** An iterator that yields in every state yields on any number of attempts
    in a row. *)
Lemma alwaysYields_yieldsFor {I : Type} (iterator : EndpointIterator I) (n : nat) (i : I) :
  alwaysYields iterator -> yieldsFor iterator n i.
Proof.
  intros Hyields. revert i; induction n as [|n IH]; intros i; [exact Logic.I|].
  destruct (Hyields i) as (e & i' & HN). exists e, i'. split; [exact HN | apply IH].
Qed.




(** C2: in route-service mode, whatever the transport answers within the
    three attempts, [RoundTrip] never calls the iterator's [Next] (the
    iterator is left as it was), every call it makes on the transport
    carries the request it was given, and the [X-CF-Forwarded-Url] header of
    the request holds the same value after [RoundTrip] returns as
    before. *)
Theorem RoundTrip_route_service_frame {I T : Type} (iterator : EndpointIterator I)
    (transport : Transport T) (rt : ProxyRoundTripper) (st : State I T) :
  servingBackend rt = false ->
  let st' := snd (RoundTrip iterator transport rt st) in
  NextCallCount (calls st') = NextCallCount (calls st)
  /\ iter st' = iter st
  /\ HeaderGet (ReqHeader (request st')) RouteServiceForwardedURL
     = HeaderGet (ReqHeader (request st)) RouteServiceForwardedURL
  /\ exists made,
       calls st' = (calls st ++ made)%list
       /\ (length made <= 4)%nat
       /\ Forall (routeServiceCall (request st)) made.
Proof.
  intros Hmode. unfold RoundTrip. rewrite Hmode.
  pose proof (routeServiceLoop_frame transport MaxRetries (None, None) st) as Hframe.
  destruct (routeServiceLoop transport MaxRetries (None, None) st) as [out st1].
  cbn [snd] in Hframe. destruct Hframe as (Hi & Hr & made & Hcalls & Hlen & Hall).
  assert (Hnext : forall l, Forall (routeServiceCall (request st)) l -> NextCallCount l = 0%nat).
  { induction 1 as [|c l Hc _ IH]; [reflexivity|].
    destruct c; try contradiction; exact IH. }
  unfold MaxRetries in Hlen.
  destruct (snd out) as [err|]; [|destruct (after rt)]; cbn [snd].
  1, 3: (split; [rewrite Hcalls, NextCallCount_app, (Hnext _ Hall); lia|];
         split; [exact Hi|]; split; [rewrite Hr; reflexivity|];
         exists made; split; [exact Hcalls|]; split; [lia | exact Hall]).
  unfold record. cbn [calls iter request].
  split; [rewrite Hcalls, !NextCallCount_app, (Hnext _ Hall); cbn; lia|].
  split; [exact Hi|]. split; [rewrite Hr; reflexivity|].
  exists (made ++ [CallAfterRoundTrip (fst out) (routeServiceEndpoint rt) None])%list.
  split; [rewrite Hcalls, <- app_assoc; reflexivity|].
  split; [rewrite length_app; simpl; lia|].
  apply Forall_app. split; [exact Hall | repeat constructor].
Qed.

Lemma RoundTrip_route_service_frame_witness :
  HeaderGet
    (ReqHeader (request (snd (RoundTrip (fakeIterator (Some routeServiceTarget))
                                (firstCallFailing (Some (responseWithStatus 200)))
                                routeServiceRoundTripper startState))))
    RouteServiceForwardedURL
  = "http://myapp.com/".
Proof.
  destruct (RoundTrip_route_service_frame (fakeIterator (Some routeServiceTarget))
              (firstCallFailing (Some (responseWithStatus 200)))
              routeServiceRoundTripper startState eq_refl) as (_ & _ & Hurl & _).
  rewrite Hurl. reflexivity.
Defined.

(** C3: in backend mode, when the iterator's [Next] returns none on the
    first attempt, [RoundTrip] returns the [NoEndpointsAvailable] sentinel
    and no response, without calling the transport. *)
Theorem RoundTrip_no_endpoints {I T : Type} (iterator : EndpointIterator I)
    (transport : Transport T) (rt : ProxyRoundTripper) (st : State I T) :
  servingBackend rt = true ->
  fst (Next iterator (iter st)) = None ->
  fst (RoundTrip iterator transport rt st) = (None, Some NoEndpointsAvailable)
  /\ trans (snd (RoundTrip iterator transport rt st)) = trans st
  /\ calls (snd (RoundTrip iterator transport rt st)) = (calls st ++ [CallNext])%list.
Proof.
  intros Hmode Hnone. unfold RoundTrip, MaxRetries. rewrite Hmode.
  cbn [backendLoop]. destruct (Next iterator (iter st)) as [e i].
  cbn [fst] in Hnone. subst e. cbn. repeat split.
Qed.

Lemma RoundTrip_no_endpoints_witness :
  fst (RoundTrip (fakeIterator None) (alwaysFailing dialError) backendRoundTripper
         startState)
  = (None, Some NoEndpointsAvailable).
Proof.
  apply (RoundTrip_no_endpoints (fakeIterator None) (alwaysFailing dialError)
           backendRoundTripper startState); reflexivity.
Defined.

End RoundTripClaims.

(** ** The metrics reporter over runs of calls *)

Section ReporterRuns.
Import GoStrings Http Route Metrics Fixtures MetricsSender.

Lemma batcher_perform (m : MetricsReporter) (c : ReporterCall) :
  batcher (perform m c) = (batcher m ++ batched c)%list.
Proof.
  destruct c; cbn [perform batched].
  - reflexivity.
  - reflexivity.
  - apply CaptureRoutingRequest_batcher.
  - unfold CaptureRoutingResponse. rewrite !batcher_increment, <- app_assoc. reflexivity.
  - unfold CaptureRouteServiceResponse. rewrite !batcher_increment, <- app_assoc.
    reflexivity.
  - rewrite app_nil_r. reflexivity.
  - rewrite app_nil_r. reflexivity.
Qed.

Lemma counterValue_perform (m : MetricsReporter) (c : ReporterCall) (name : string) :
  counterValue (perform m c) name
  = (counterValue m name + count_occ string_dec (batched c) name)%nat.
Proof. unfold counterValue. rewrite batcher_perform. apply count_occ_app. Qed.

Lemma list_sum_cons (n : nat) (l : list nat) :
  list_sum (n :: l) = (n + list_sum l)%nat.
Proof. reflexivity. Qed.

(** Over a run, a counter grows by the number of times its name is batched. *)
Lemma counterValue_performAll (cs : list ReporterCall) (m : MetricsReporter)
    (name : string) :
  counterValue (performAll m cs) name
  = (counterValue m name
     + list_sum (List.map (fun c => count_occ string_dec (batched c) name) cs))%nat.
Proof.
  revert m; induction cs as [|c cs IH]; intros m; cbn [performAll fold_left List.map].
  - change (list_sum []) with 0%nat. lia.
  - fold (performAll (perform m c) cs).
    rewrite IH, counterValue_perform, list_sum_cons. lia.
Qed.

Lemma getResponseCounterName_buckets (res : option Response) :
  In (getResponseCounterName res) buckets.
Proof.
  unfold getResponseCounterName, buckets.
  set (q := match res with Some r => Z.quot (StatusCode r) 100 | None => 0 end).
  destruct (Z.leb_spec 2 q); [|cbn; tauto].
  destruct (Z.leb_spec q 5); [|cbn; tauto].
  cbn [andb].
  assert (q = 2 \/ q = 3 \/ q = 4 \/ q = 5) as Hq by lia.
  destruct Hq as [-> | [-> | [-> | ->]]]; cbn; tauto.
Qed.

(** No per-component counter shares its name with a counter that does not
    start with [requests.]. *)
Lemma count_occ_componentCounters (tag : option string) (name : string) :
  String.prefix "requests." name = false ->
  name <> "routed_app_requests" ->
  count_occ string_dec (componentCounters tag) name = 0%nat.
Proof.
  intros Hp Hr. unfold componentCounters.
  destruct tag as [c|]; [|reflexivity].
  destruct (String.eqb c ""); [reflexivity|].
  assert (Hc : (if string_dec ("requests." ++ c) name then 1 else 0)%nat = 0%nat).
  { destruct (string_dec _ _) as [E|_]; [|reflexivity].
    exfalso. exact (append_neq_prefix "requests." c name Hp E). }
  destruct (HasPrefix c "dea-"); rewrite !count_occ_cons_if, Hc; cbn [count_occ];
    try reflexivity.
  destruct (string_dec "routed_app_requests" name) as [E|_]; [|reflexivity].
  symmetry in E. contradiction.
Qed.

(** What one call adds to a plain response counter equals what it adds to
    its five buckets together. *)
Lemma batched_partition (c : ReporterCall) (plain dotted : string) :
  (plain = "responses" /\ dotted = "responses.")
  \/ (plain = "responses.route_services" /\ dotted = "responses.route_services.") ->
  count_occ string_dec (batched c) plain
  = list_sum (List.map (fun b => count_occ string_dec (batched c) (dotted ++ b)) buckets).
Proof.
  intros [[-> ->] | [-> ->]]; destruct c; cbn [batched]; try reflexivity.
  1, 3: (cbn [buckets List.map]; rewrite !list_sum_cons, !count_occ_cons_if;
         rewrite !count_occ_componentCounters by (reflexivity || (intros E; vm_compute in E; discriminate E));
         reflexivity).
  all: pose proof (getResponseCounterName_buckets res) as Hb;
       destruct Hb as [<- | [<- | [<- | [<- | [<- | []]]]]]; reflexivity.
Qed.

Lemma list_sum_indicator {A : Type} (p : A -> bool) (f : A -> nat) (l : list A) :
  (forall a, f a = if p a then 1 else 0)%nat ->
  list_sum (List.map f l) = length (List.filter p l).
Proof.
  intros Hf. induction l as [|a l IH]; [reflexivity|].
  change (List.map f (a :: l)) with (f a :: List.map f l).
  change (List.filter p (a :: l))
    with (if p a then a :: List.filter p l else List.filter p l).
  rewrite list_sum_cons, IH, Hf.
  destruct (p a); reflexivity.
Qed.

(** What one call adds to a plain response counter and to each of its
    buckets. *)
Lemma batched_responses (c : ReporterCall) :
  count_occ string_dec (batched c) "responses"
  = (if ResponseCalls.isRoutingResponse c then 1 else 0)%nat
  /\ count_occ string_dec (batched c) "responses.route_services"
     = (if ResponseCalls.isRouteServiceResponse c then 1 else 0)%nat
  /\ (forall b, In b buckets ->
        count_occ string_dec (batched c) ("responses." ++ b)
        = (if ResponseCalls.isRoutingResponseIn b c then 1 else 0)%nat
        /\ count_occ string_dec (batched c) ("responses.route_services." ++ b)
           = (if ResponseCalls.isRouteServiceResponseIn b c then 1 else 0)%nat).
Proof.
  destruct c;
    cbn [batched ResponseCalls.isRoutingResponse ResponseCalls.isRouteServiceResponse
         ResponseCalls.isRoutingResponseIn ResponseCalls.isRouteServiceResponseIn].
  1, 2, 6, 7: (split; [reflexivity|]; split; [reflexivity|];
               intros b Hb; destruct Hb as [<- | [<- | [<- | [<- | [<- | []]]]]];
               split; reflexivity).
  - (* RoutingRequest *)
    rewrite !count_occ_cons_if.
    rewrite !count_occ_componentCounters
      by (reflexivity || (intros E; vm_compute in E; discriminate E)).
    split; [reflexivity|]. split; [reflexivity|].
    intros b0 Hb; destruct Hb as [<- | [<- | [<- | [<- | [<- | []]]]]];
      rewrite !count_occ_cons_if;
      rewrite !count_occ_componentCounters
        by (reflexivity || (intros E; vm_compute in E; discriminate E));
      split; reflexivity.
  - (* RoutingResponse *)
    pose proof (getResponseCounterName_buckets res) as Hres.
    destruct Hres as [<- | [<- | [<- | [<- | [<- | []]]]]];
      (split; [reflexivity|]; split; [reflexivity|];
       intros b Hb; destruct Hb as [<- | [<- | [<- | [<- | [<- | []]]]]];
       split; reflexivity).
  - (* RouteServiceResponse *)
    pose proof (getResponseCounterName_buckets res) as Hres.
    destruct Hres as [<- | [<- | [<- | [<- | [<- | []]]]]];
      (split; [reflexivity|]; split; [reflexivity|];
       intros b Hb; destruct Hb as [<- | [<- | [<- | [<- | [<- | []]]]]];
       split; reflexivity).
Qed.

(** X1: over any run of reporter calls, [responses] grows by exactly the
    number of [CaptureRoutingResponse] calls and each counter
    [responses.<bucket>] by the number of those calls whose response falls
    in that bucket, and likewise [responses.route_services] and its buckets
    for the [CaptureRouteServiceResponse] calls: no other call touches
    these counters.  So [responses] grows by exactly as much as its five
    buckets together, and so does [responses.route_services]; on a fresh
    reporter each plain counter equals the sum of its buckets. *)
Theorem response_buckets_partition (m : MetricsReporter) (cs : list ReporterCall) :
  counterValue (performAll m cs) "responses"
  = (counterValue m "responses"
     + length (List.filter ResponseCalls.isRoutingResponse cs))%nat
  /\ counterValue (performAll m cs) "responses.route_services"
     = (counterValue m "responses.route_services"
        + length (List.filter ResponseCalls.isRouteServiceResponse cs))%nat
  /\ (forall b, In b buckets ->
        counterValue (performAll m cs) ("responses." ++ b)
        = (counterValue m ("responses." ++ b)
           + length (List.filter (ResponseCalls.isRoutingResponseIn b) cs))%nat
        /\ counterValue (performAll m cs) ("responses.route_services." ++ b)
           = (counterValue m ("responses.route_services." ++ b)
              + length (List.filter (ResponseCalls.isRouteServiceResponseIn b) cs))%nat)
  /\ (counterValue (performAll m cs) "responses" + bucketSum m "responses."
      = counterValue m "responses" + bucketSum (performAll m cs) "responses.")%nat
  /\ (counterValue (performAll m cs) "responses.route_services"
      + bucketSum m "responses.route_services."
      = counterValue m "responses.route_services"
        + bucketSum (performAll m cs) "responses.route_services.")%nat
  /\ counterValue (performAll freshReporter cs) "responses"
     = bucketSum (performAll freshReporter cs) "responses."
  /\ counterValue (performAll freshReporter cs) "responses.route_services"
     = bucketSum (performAll freshReporter cs) "responses.route_services.".
Proof.
  assert (Hgen : forall plain dotted m0,
            (plain = "responses" /\ dotted = "responses.")
            \/ (plain = "responses.route_services"
                /\ dotted = "responses.route_services.") ->
            (counterValue (performAll m0 cs) plain + bucketSum m0 dotted
             = counterValue m0 plain + bucketSum (performAll m0 cs) dotted)%nat).
  { intros plain dotted m0 Hnames. unfold bucketSum, buckets.
    cbn [List.map]. rewrite !list_sum_cons. change (list_sum []) with 0%nat.
    rewrite !counterValue_performAll.
    assert (Hsum : list_sum (List.map (fun c => count_occ string_dec (batched c) plain) cs)
                   = (list_sum (List.map (fun c => count_occ string_dec (batched c) (dotted ++ "2xx")) cs)
                      + list_sum (List.map (fun c => count_occ string_dec (batched c) (dotted ++ "3xx")) cs)
                      + list_sum (List.map (fun c => count_occ string_dec (batched c) (dotted ++ "4xx")) cs)
                      + list_sum (List.map (fun c => count_occ string_dec (batched c) (dotted ++ "5xx")) cs)
                      + list_sum (List.map (fun c => count_occ string_dec (batched c) (dotted ++ "xxx")) cs))%nat).
    { induction cs as [|c cs' IH]; [reflexivity|].
      cbn [List.map]. rewrite !list_sum_cons, IH, (batched_partition c plain dotted Hnames).
      unfold buckets. cbn [List.map]. rewrite !list_sum_cons.
      change (list_sum []) with 0%nat. lia. }
    lia. }
  split; [|split; [|split]].
  - rewrite counterValue_performAll.
    rewrite (list_sum_indicator ResponseCalls.isRoutingResponse)
      by (intros c; apply batched_responses).
    reflexivity.
  - rewrite counterValue_performAll.
    rewrite (list_sum_indicator ResponseCalls.isRouteServiceResponse)
      by (intros c; apply batched_responses).
    reflexivity.
  - intros b Hb. split; rewrite counterValue_performAll.
    + rewrite (list_sum_indicator (ResponseCalls.isRoutingResponseIn b))
        by (intros c; apply batched_responses; exact Hb).
      reflexivity.
    + rewrite (list_sum_indicator (ResponseCalls.isRouteServiceResponseIn b))
        by (intros c; apply batched_responses; exact Hb).
      reflexivity.
  - split; [apply Hgen; tauto|]. split; [apply Hgen; tauto|].
    split.
    + pose proof (Hgen "responses" "responses." freshReporter ltac:(tauto)) as H.
      change (bucketSum freshReporter "responses.") with 0%nat in H.
      change (counterValue freshReporter "responses") with 0%nat in H. lia.
    + pose proof (Hgen "responses.route_services" "responses.route_services."
                    freshReporter ltac:(tauto)) as H.
      change (bucketSum freshReporter "responses.route_services.") with 0%nat in H.
      change (counterValue freshReporter "responses.route_services") with 0%nat in H. lia.
Qed.

Lemma response_buckets_partition_witness :
  counterValue
    (performAll freshReporter
       [BadGateway; RoutingResponse (Some (responseWithStatus 404));
        RoutingRequest (endpointWithComponent "responses.4xx");
        RouteServiceResponse (Some (responseWithStatus 404));
        RoutingResponse None])
    ("responses." ++ "4xx")
  = 1%nat.
Proof.
  destruct (response_buckets_partition freshReporter
              [BadGateway; RoutingResponse (Some (responseWithStatus 404));
               RoutingRequest (endpointWithComponent "responses.4xx");
               RouteServiceResponse (Some (responseWithStatus 404));
               RoutingResponse None]) as (_ & _ & Hbucket & _).
  destruct (Hbucket "4xx") as [H _].
  - cbn. tauto.
  - rewrite H. reflexivity.
Defined.

(** What one call adds to the four global counters. *)
Lemma batched_globals (c : ReporterCall) :
  count_occ string_dec (batched c) "total_requests"
  = (if isRoutingRequest c then 1 else 0)%nat
  /\ count_occ string_dec (batched c) "routed_app_requests"
     = (if isRoutedAppRequest c then 1 else 0)%nat
  /\ count_occ string_dec (batched c) "rejected_requests"
     = (if isBadRequest c then 1 else 0)%nat
  /\ count_occ string_dec (batched c) "bad_gateways"
     = (if isBadGateway c then 1 else 0)%nat.
Proof.
  destruct c; cbn [batched isRoutingRequest isRoutedAppRequest isBadRequest isBadGateway];
    try (repeat split; reflexivity).
  - (* RoutingRequest *)
    rewrite !count_occ_cons_if.
    rewrite !(count_occ_componentCounters _ "total_requests") by (reflexivity || (intros E; vm_compute in E; discriminate E)).
    rewrite !(count_occ_componentCounters _ "rejected_requests") by (reflexivity || (intros E; vm_compute in E; discriminate E)).
    rewrite !(count_occ_componentCounters _ "bad_gateways") by (reflexivity || (intros E; vm_compute in E; discriminate E)).
    repeat split; try reflexivity.
    unfold componentCounters.
    destruct (Tags b !! "component") as [cn|]; [|reflexivity].
    destruct (String.eqb_spec cn "") as [-> | _]; [reflexivity|].
    assert (Hc : (if string_dec ("requests." ++ cn) "routed_app_requests" then 1 else 0)%nat
                 = 0%nat).
    { destruct (string_dec _ _) as [E|_]; [|reflexivity].
      exfalso. exact (append_neq_prefix "requests." cn "routed_app_requests" eq_refl E). }
    destruct (HasPrefix cn "dea-"); rewrite !count_occ_cons_if, Hc; reflexivity.
Qed.

(** X2: over any run of reporter calls, [total_requests] grows by the number
    of [CaptureRoutingRequest] calls, [routed_app_requests] by the number of
    those whose endpoint's component tag starts with [dea-],
    [rejected_requests] by the number of [CaptureBadRequest] calls and
    [bad_gateways] by the number of [CaptureBadGateway] calls, whatever
    component tags and responses the other calls carry; so
    [routed_app_requests] never grows by more than [total_requests]. *)
Theorem global_counters_count_calls (m : MetricsReporter) (cs : list ReporterCall) :
  counterValue (performAll m cs) "total_requests"
  = (counterValue m "total_requests" + length (List.filter isRoutingRequest cs))%nat
  /\ counterValue (performAll m cs) "routed_app_requests"
     = (counterValue m "routed_app_requests"
        + length (List.filter isRoutedAppRequest cs))%nat
  /\ counterValue (performAll m cs) "rejected_requests"
     = (counterValue m "rejected_requests" + length (List.filter isBadRequest cs))%nat
  /\ counterValue (performAll m cs) "bad_gateways"
     = (counterValue m "bad_gateways" + length (List.filter isBadGateway cs))%nat
  /\ (length (List.filter isRoutedAppRequest cs)
      <= length (List.filter isRoutingRequest cs))%nat.
Proof.
  rewrite !counterValue_performAll.
  rewrite (list_sum_indicator isRoutingRequest) by (intros c; apply batched_globals).
  rewrite (list_sum_indicator isRoutedAppRequest) by (intros c; apply batched_globals).
  rewrite (list_sum_indicator isBadRequest) by (intros c; apply batched_globals).
  rewrite (list_sum_indicator isBadGateway) by (intros c; apply batched_globals).
  repeat split.
  induction cs as [|c cs IH]; [reflexivity|].
  cbn [List.filter].
  destruct c; cbn [isRoutedAppRequest isRoutingRequest]; try exact IH.
  destruct (Tags b !! "component") as [cn|]; [destruct (HasPrefix cn "dea-")|];
    cbn [length]; lia.
Qed.

End ReporterRuns.

(** ** The metrics reporter's calls on the sender *)

Section SenderCalls.
Import GoStrings Http Route Metrics Fixtures MoreFixtures MetricsSender.

Lemma append_cancel (pre a b : string) : pre ++ a = pre ++ b -> a = b.
Proof.
  induction pre as [|c pre IH]; intros H; [exact H|].
  apply IH. change (String c (pre ++ a) = String c (pre ++ b)) in H.
  congruence.
Qed.

Example CaptureUnregistryMessage_names :
  sender (CaptureUnregistryMessage freshReporter "") = ["unregistry_message"]
  /\ sender (CaptureUnregistryMessage freshReporter "route-emitter")
     = ["unregistry_message.route-emitter"]
  /\ sender (CaptureRegistryMessage freshReporter {| Component := "" |})
     = ["registry_message."].
Proof. repeat split; reflexivity. Qed.

(** X3: [CaptureRegistryMessage] and [CaptureUnregistryMessage] increment
    one counter on the sender and leave the batcher alone.  The
    unregistration counter is [unregistry_message] for the empty component
    name and [unregistry_message.<component>] otherwise; distinct component
    names get distinct counters, for registrations and for unregistrations,
    and no registration counter is an unregistration counter. *)
Theorem registry_counters (m : MetricsReporter) :
  (forall msg,
     batcher (CaptureRegistryMessage m msg) = batcher m
     /\ sender (CaptureRegistryMessage m msg)
        = (sender m ++ [("registry_message." ++ Component msg)%string])%list)
  /\ (forall c,
        batcher (CaptureUnregistryMessage m c) = batcher m
        /\ (c = "" ->
            sender (CaptureUnregistryMessage m c)
            = (sender m ++ ["unregistry_message"])%list)
        /\ (c <> "" ->
            sender (CaptureUnregistryMessage m c)
            = (sender m ++ [("unregistry_message." ++ c)%string])%list))
  /\ (forall c1 c2,
        c1 <> c2 ->
        sender (CaptureUnregistryMessage m c1) <> sender (CaptureUnregistryMessage m c2))
  /\ (forall msg1 msg2,
        Component msg1 <> Component msg2 ->
        sender (CaptureRegistryMessage m msg1) <> sender (CaptureRegistryMessage m msg2))
  /\ (forall msg c,
        sender (CaptureRegistryMessage m msg) <> sender (CaptureUnregistryMessage m c)).
Proof.
  assert (Hun : forall c,
            sender (CaptureUnregistryMessage m c)
            = (sender m ++ [if String.eqb c "" then "unregistry_message"
                            else ("unregistry_message." ++ c)%string])%list).
  { intros c. unfold CaptureUnregistryMessage, IncrementCounter. cbn [sender].
    destruct (String.eqb c ""); reflexivity. }
  split; [|split; [|split; [|split]]].
  - intros msg. split; reflexivity.
  - intros c. split; [reflexivity|]. rewrite Hun. split.
    + intros ->. reflexivity.
    + intros Hc. apply String.eqb_neq in Hc. rewrite Hc. reflexivity.
  - intros c1 c2 Hne H. rewrite !Hun in H. apply app_inj_tail in H as [_ H].
    destruct (String.eqb_spec c1 "") as [-> | H1];
      destruct (String.eqb_spec c2 "") as [-> | H2].
    + contradiction.
    + symmetry in H.
      change ("unregistry_message" ++ ("." ++ c2) = "unregistry_message") in H.
      exact (append_neq_self "unregistry_message" ("." ++ c2) ltac:(discriminate) H).
    + change ("unregistry_message" ++ ("." ++ c1) = "unregistry_message") in H.
      exact (append_neq_self "unregistry_message" ("." ++ c1) ltac:(discriminate) H).
    + apply append_cancel in H. contradiction.
  - intros msg1 msg2 Hne H. unfold CaptureRegistryMessage, IncrementCounter in H.
    cbn [sender] in H. apply app_inj_tail in H as [_ H].
    apply append_cancel in H. contradiction.
  - intros msg c H. rewrite Hun in H.
    unfold CaptureRegistryMessage, IncrementCounter in H. cbn [sender] in H.
    apply app_inj_tail in H as [_ H].
    destruct (String.eqb c "").
    + exact (append_neq_prefix "registry_message." _ "unregistry_message" eq_refl H).
    + change ("r" ++ ("egistry_message." ++ Component msg)
              = "u" ++ ("nregistry_message." ++ c)) in H.
      discriminate H.
Qed.

Lemma registry_counters_witness :
  sender (CaptureUnregistryMessage freshReporter "") = ["unregistry_message"]
  /\ sender (CaptureUnregistryMessage freshReporter "uaa")
     <> sender (CaptureUnregistryMessage freshReporter "")
  /\ sender (CaptureRegistryMessage freshReporter {| Component := "uaa" |})
     <> sender (CaptureRegistryMessage freshReporter {| Component := "" |}).
Proof.
  destruct (registry_counters freshReporter) as (_ & Hun & Hinj & Hreg & _).
  split; [|split].
  - apply (Hun ""). reflexivity.
  - apply Hinj. discriminate.
  - apply Hreg. discriminate.
Defined.

(** Truncating division by a millisecond keeps the result far inside the
    range in which [float64] holds every integer. *)
Lemma quot_Millisecond_bounds (d : Z) :
  int64 d ->
  - 2 ^ 53 < Z.quot d Millisecond < 2 ^ 53
  /\ (0 <= d -> Millisecond * Z.quot d Millisecond <= d
                < Millisecond * (Z.quot d Millisecond + 1))
  /\ (d <= 0 -> Millisecond * (Z.quot d Millisecond - 1) < d
                <= Millisecond * Z.quot d Millisecond).
Proof.
  unfold int64, Millisecond. intros Hd.
  pose proof (Z.quot_rem' d 1000000) as Hqr.
  pose proof (Z.rem_bound_abs d 1000000 ltac:(lia)) as Habs.
  assert (H53 : 2 ^ 53 = 9007199254740992) by reflexivity.
  assert (H63 : 2 ^ 63 = 9223372036854775808) by reflexivity.
  rewrite H53. rewrite H63 in Hd.
  destruct (Z_le_gt_dec 0 d) as [Hpos|Hneg].
  - pose proof (Z.rem_nonneg d 1000000 ltac:(lia) Hpos). lia.
  - pose proof (Z.rem_nonpos d 1000000 ltac:(lia) ltac:(lia)). lia.
Qed.

Example CaptureRoutingResponseLatency_submillisecond :
  CaptureRoutingResponseLatency (endpointWithComponent "dea-1") None 0 999999
  = [ {| sentName := "latency"; sentInteger := 0; sentUnit := "ms" |};
      {| sentName := "latency.dea-1"; sentInteger := 0; sentUnit := "ms" |} ].
Proof. reflexivity. Qed.

(** X4: for every duration (an [int64] count of nanoseconds)
    [CaptureRoutingResponseLatency] first sends [latency] and then, exactly
    when the endpoint's component tag is present and not empty,
    [latency.<component>]; every value sent has unit [ms] and is the
    duration in whole milliseconds, truncated toward zero, an integer of
    magnitude below 2^53, which [float64] represents exactly. *)
Theorem CaptureRoutingResponseLatency_values (b : Endpoint) (res : option Response)
    (t d : Z) :
  int64 d ->
  let sent := CaptureRoutingResponseLatency b res t d in
  List.map sentName sent
  = "latency" :: match Tags b !! "component" with
                 | Some c => if String.eqb c "" then [] else [("latency." ++ c)%string]
                 | None => []
                 end
  /\ Forall (fun v =>
               sentUnit v = "ms"
               /\ sentInteger v = Z.quot d Millisecond
               /\ - 2 ^ 53 < sentInteger v < 2 ^ 53) sent
  /\ (0 <= d ->
      Millisecond * Z.quot d Millisecond <= d < Millisecond * (Z.quot d Millisecond + 1))
  /\ (d <= 0 ->
      Millisecond * (Z.quot d Millisecond - 1) < d <= Millisecond * Z.quot d Millisecond).
Proof.
  intros Hd sent. destruct (quot_Millisecond_bounds d Hd) as (Hb & Hpos & Hneg).
  split; [|split; [|split; assumption]].
  - unfold sent, CaptureRoutingResponseLatency.
    destruct (Tags b !! "component") as [c|]; [|reflexivity].
    destruct c; reflexivity.
  - unfold sent, CaptureRoutingResponseLatency.
    destruct (Tags b !! "component") as [c|]; [destruct c|];
      cbn [String.length Nat.ltb Nat.leb];
      repeat (apply List.Forall_cons;
              [split; [reflexivity | split; [reflexivity | exact Hb]]|]);
      apply List.Forall_nil.
Qed.

Lemma CaptureRoutingResponseLatency_values_witness :
  List.map sentName
    (CaptureRoutingResponseLatency (endpointWithComponent "router") None 0 1500000000)
  = ["latency"; "latency.router"].
Proof.
  apply (CaptureRoutingResponseLatency_values (endpointWithComponent "router") None 0
           1500000000).
  unfold int64. lia.
Defined.

End SenderCalls.

(** ** proxy.go: further properties of the host, the cookies and the director *)

Section HostShape.
Import GoStrings Http Route Proxy Fixtures ProxyFixtures MoreFixtures.

(** Every string either holds no colon or splits at its first colon. *)
Lemma first_colon_split (s : string) :
  occursIn ":" s = false
  \/ exists pre rest, s = pre ++ String ":" rest /\ occursIn ":" pre = false.
Proof.
  induction s as [|a s IH]; [left; reflexivity|].
  destruct (Ascii.eqb_spec a ":") as [-> | Ha].
  - right. exists "", s. split; reflexivity.
  - apply Ascii.eqb_neq in Ha. destruct IH as [IH | (pre & rest & -> & Hpre)].
    + left. cbn [occursIn]. rewrite Ha, IH. reflexivity.
    + right. exists (String a pre), rest. split; [reflexivity|].
      cbn [occursIn]. rewrite Ha, Hpre. reflexivity.
Qed.

Lemma hostWithoutPort_absent (req : Request) :
  occursIn ":" (Host req) = false -> hostWithoutPort req = Host req.
Proof.
  intros H. unfold hostWithoutPort, Index.
  rewrite (indexFrom_absent _ 0 H). reflexivity.
Qed.

Lemma hostWithoutPort_split (req : Request) (pre rest : string) :
  Host req = pre ++ String ":" rest -> occursIn ":" pre = false ->
  hostWithoutPort req = pre.
Proof.
  intros Hhost H. unfold hostWithoutPort, Index, sliceTo.
  rewrite Hhost, (indexFrom_first pre rest 0 H). cbn [Nat.add].
  destruct (Z.leb_spec 0 (Z.of_nat (String.length pre))); [|lia].
  rewrite Nat2Z.id. apply substring_prefix.
Qed.

(** X5: for every request the result of [hostWithoutPort] holds no colon and
    is a prefix of the [Host]: what follows it in the [Host] is empty or
    starts with a colon.  Stripping the port again changes nothing. *)
Theorem hostWithoutPort_shape (req : Request) :
  occursIn ":" (hostWithoutPort req) = false
  /\ (exists rest,
        Host req = hostWithoutPort req ++ rest
        /\ (rest = "" \/ exists port, rest = String ":" port))
  /\ hostWithoutPort (withHost req (hostWithoutPort req)) = hostWithoutPort req.
Proof.
  assert (Hnil : forall s : string, s ++ "" = s).
  { induction s as [|a s IH]; [reflexivity|]. rewrite append_cons, IH. reflexivity. }
  destruct (first_colon_split (Host req)) as [Hno | (pre & rest & Hhost & Hpre)].
  - rewrite (hostWithoutPort_absent req Hno).
    split; [exact Hno|]. split.
    + exists "". split; [symmetry; apply Hnil | left; reflexivity].
    + apply (hostWithoutPort_absent (withHost req (Host req))). exact Hno.
  - rewrite (hostWithoutPort_split req pre rest Hhost Hpre).
    split; [exact Hpre|]. split.
    + exists (String ":" rest). split; [exact Hhost | right; eauto].
    + apply (hostWithoutPort_absent (withHost req pre)). exact Hpre.
Qed.

End HostShape.

Section StickyCookies.
Import GoStrings Http Route Proxy Fixtures ProxyFixtures MoreFixtures.

Example getStickySession_needs_both :
  getStickySession (withCookies (requestTo "myapp.com" ∅)
                      [cookie "__VCAP_ID__" "id-1" 0 false]) = ""
  /\ getStickySession (withCookies (requestTo "myapp.com" ∅)
                         [cookie "__VCAP_ID__" "id-1" 0 false;
                          cookie "JSESSIONID" "abc" 0 false;
                          cookie "__VCAP_ID__" "id-2" 0 false]) = "id-1".
Proof. split; reflexivity. Qed.

(** X6: [getStickySession] returns the empty string when the request has no
    [JSESSIONID] cookie, even if it carries a [__VCAP_ID__] cookie, and when
    it has no [__VCAP_ID__] cookie; when it has both, it returns the value
    of the first [__VCAP_ID__] cookie, wherever the two stand among the
    request's cookies. *)
Theorem getStickySession_cookies (request : Request) :
  ((forall c, In c (ReqCookies request) -> Name c <> "JSESSIONID") ->
     getStickySession request = "")
  /\ ((forall c, In c (ReqCookies request) -> Name c <> "__VCAP_ID__") ->
        getStickySession request = "")
  /\ (forall before sticky rest,
        ReqCookies request = (before ++ sticky :: rest)%list ->
        Name sticky = "__VCAP_ID__" ->
        (forall c, In c before -> Name c <> "__VCAP_ID__") ->
        (exists j, In j (ReqCookies request) /\ Name j = "JSESSIONID") ->
        getStickySession request = Value sticky).
Proof.
  assert (Hnone : forall name cookies,
            (forall c, In c cookies -> Name c <> name) ->
            List.find (fun c => String.eqb (Name c) name) cookies = None).
  { intros name cookies H. induction cookies as [|c cookies IH]; [reflexivity|].
    cbn [List.find]. destruct (String.eqb_spec (Name c) name) as [E | _].
    - exfalso. exact (H c (or_introl eq_refl) E).
    - apply IH. intros c' Hc'. apply H. right. exact Hc'. }
  unfold getStickySession, RequestCookie. split; [|split].
  - intros H. rewrite (Hnone StickyCookieKey _ H). reflexivity.
  - intros H. rewrite (Hnone VcapCookieId _ H).
    destruct (List.find _ _); reflexivity.
  - intros before sticky rest Hcookies Hname Hbefore (j & Hj & Hjname).
    destruct (List.find (fun c => String.eqb (Name c) StickyCookieKey) (ReqCookies request))
      as [j'|] eqn:Hfind.
    + rewrite Hcookies. clear Hcookies Hfind Hj.
      induction before as [|c before IH]; cbn [app List.find].
      * unfold VcapCookieId. rewrite Hname. reflexivity.
      * destruct (String.eqb_spec (Name c) VcapCookieId) as [E | _].
        -- exfalso. exact (Hbefore c (or_introl eq_refl) E).
        -- apply IH. intros c' Hc'. apply Hbefore. right. exact Hc'.
    + pose proof (List.find_none _ _ Hfind j Hj) as Hn. cbn in Hn.
      rewrite Hjname in Hn. discriminate Hn.
Qed.

Lemma getStickySession_cookies_witness :
  getStickySession (withCookies (requestTo "myapp.com" ∅)
                      [cookie "__VCAP_ID__" "id-1" 0 false]) = ""
  /\ getStickySession (withCookies (requestTo "myapp.com" ∅)
                         [cookie "JSESSIONID" "abc" 0 false]) = ""
  /\ getStickySession (withCookies (requestTo "myapp.com" ∅)
                         [cookie "lang" "en" 0 false;
                          cookie "__VCAP_ID__" "id-1" 0 false;
                          cookie "JSESSIONID" "abc" 0 false]) = "id-1".
Proof.
  split; [|split].
  - destruct (getStickySession_cookies
                (withCookies (requestTo "myapp.com" ∅)
                   [cookie "__VCAP_ID__" "id-1" 0 false])) as (H & _).
    apply H. intros c [<- | []]. discriminate.
  - destruct (getStickySession_cookies
                (withCookies (requestTo "myapp.com" ∅)
                   [cookie "JSESSIONID" "abc" 0 false])) as (_ & H & _).
    apply H. intros c [<- | []]. discriminate.
  - destruct (getStickySession_cookies
                (withCookies (requestTo "myapp.com" ∅)
                   [cookie "lang" "en" 0 false;
                    cookie "__VCAP_ID__" "id-1" 0 false;
                    cookie "JSESSIONID" "abc" 0 false])) as (_ & _ & H).
    apply (H [cookie "lang" "en" 0 false] (cookie "__VCAP_ID__" "id-1" 0 false)
             [cookie "JSESSIONID" "abc" 0 false]).
    + reflexivity.
    + reflexivity.
    + intros c [<- | []]. discriminate.
    + exists (cookie "JSESSIONID" "abc" 0 false). split; [cbn; tauto | reflexivity].
Defined.

(** What [setupStickySession] appends to the writer's cookies. *)
Lemma setupStickySession_appends (responseWriter : ResponseWriter)
    (response : Response) (endpoint : Endpoint) (originalEndpointId : string)
    (secureCookies : bool) (path : string) :
  let written :=
    setupStickySession responseWriter response endpoint originalEndpointId
      secureCookies path in
  IsProxyResponseWriter written = IsProxyResponseWriter responseWriter
  /\ (SetCookies written = SetCookies responseWriter
      \/ exists c,
           SetCookies written = (SetCookies responseWriter ++ [c])%list
           /\ Name c = VcapCookieId
           /\ Value c = PrivateInstanceId endpoint
           /\ MaxAge c <= 0).
Proof.
  unfold setupStickySession. rewrite scanStickyCookie_find.
  destruct (List.find _ _) as [j|].
  - split; [reflexivity|]. right. eexists. split; [reflexivity|]. cbn.
    repeat split. destruct (Z.ltb_spec (MaxAge j) 0); lia.
  - destruct (negb _ && negb _).
    + split; [reflexivity|]. right. eexists. split; [reflexivity|]. cbn.
      repeat split. lia.
    + split; [reflexivity|]. left. reflexivity.
Qed.

(** X7: [setupStickySession] keeps the cookies already set on the writer and
    adds at most one; a cookie it adds is named [__VCAP_ID__] and never has
    a positive [MaxAge], so the sticky cookie is never a persistent one. *)
Theorem setupStickySession_session_only (responseWriter : ResponseWriter)
    (response : Response) (endpoint : Endpoint) (originalEndpointId : string)
    (secureCookies : bool) (path : string) :
  let written :=
    setupStickySession responseWriter response endpoint originalEndpointId
      secureCookies path in
  exists added,
    SetCookies written = (SetCookies responseWriter ++ added)%list
    /\ (length added <= 1)%nat
    /\ Forall (fun c => Name c = "__VCAP_ID__" /\ MaxAge c <= 0) added.
Proof.
  intros written. subst written.
  pose proof (setupStickySession_appends responseWriter response endpoint
                originalEndpointId secureCookies path) as Happ.
  cbv zeta in Happ.
  destruct Happ as (_ & [Hsame | (c & Hadd & Hname & _ & Hage)]).
  - exists []. rewrite app_nil_r. split; [exact Hsame|]. split; [cbn; lia | constructor].
  - exists [c]. split; [exact Hadd|]. split; [cbn; lia|].
    repeat constructor; assumption.
Qed.

End StickyCookies.

Section DirectorFrame.
Import GoStrings Http Route Proxy Fixtures ProxyFixtures MoreFixtures.

Lemma withHeader_same (r : Request) : withHeader r (ReqHeader r) = r.
Proof. destruct r; reflexivity. Qed.

(** With nothing shared the statement-by-statement director is the director
    on two requests of their own. *)
Lemma setupProxyRequestShared_apart (p : proxy) (nowMillis : Z) (source target : Request) :
  DirectorSharing.setupProxyRequestShared
    {| DirectorSharing.sameHeader := false; DirectorSharing.sameURL := false |}
    p nowMillis source target
  = setupProxyRequest p nowMillis source target.
Proof.
  unfold DirectorSharing.setupProxyRequestShared, setupProxyRequest,
    DirectorSharing.writeTargetHeader, DirectorSharing.writeSourceHeader,
    DirectorSharing.writeTargetURL.
  cbv zeta. cbn [DirectorSharing.sameHeader DirectorSharing.sameURL fst snd].
  destruct (forceForwardedProtoHttps p);
    [|destruct (String.eqb (HeaderGet (ReqHeader source) "X-Forwarded-Proto") "")];
    cbn [fst snd withHeader withURL ReqHeader ReqURL RequestURI Host UrlPath];
    f_equal;
    unfold SetRequestXRequestStart;
    destruct (ReqHeader source !! CanonicalHeaderKey "X-Request-Start");
    cbn [withHeader ReqHeader]; try reflexivity; apply withHeader_same.
Qed.

(** X9: whether or not [source] and [target] share their header map and
    their URL, the director leaves the target's method, [Host],
    [RequestURI], TLS state, cookies, context and URL path as they are, and
    the entry of every header key other than [X-Forwarded-Proto],
    [X-Cf-App-Instance] and [X-Request-Start].  The target's
    [X-Request-Start] entry is left alone when the maps are apart; when the
    map is shared it is kept if present and stamped with the time
    otherwise.  With nothing shared the director is [setupProxyRequest]. *)
Theorem setupProxyRequest_frame (sh : DirectorSharing.Sharing) (p : proxy)
    (nowMillis : Z) (source target : Request) :
  (DirectorSharing.sameHeader sh = true -> ReqHeader source = ReqHeader target) ->
  let target' :=
    snd (DirectorSharing.setupProxyRequestShared sh p nowMillis source target) in
  Method target' = Method target
  /\ Host target' = Host target
  /\ RequestURI target' = RequestURI target
  /\ TLS target' = TLS target
  /\ ReqCookies target' = ReqCookies target
  /\ ReqContext target' = ReqContext target
  /\ UrlPath (ReqURL target') = UrlPath (ReqURL target)
  /\ (forall key,
        key <> "X-Forwarded-Proto" -> key <> "X-Cf-App-Instance" ->
        key <> "X-Request-Start" ->
        ReqHeader target' !! key = ReqHeader target !! key)
  /\ (DirectorSharing.sameHeader sh = false ->
      ReqHeader target' !! "X-Request-Start" = ReqHeader target !! "X-Request-Start")
  /\ (DirectorSharing.sameHeader sh = true ->
      ReqHeader target' !! "X-Request-Start"
      = match ReqHeader target !! "X-Request-Start" with
        | Some v => Some v
        | None => Some [fmt_d nowMillis]
        end)
  /\ (DirectorSharing.sameHeader sh = false -> DirectorSharing.sameURL sh = false ->
      DirectorSharing.setupProxyRequestShared sh p nowMillis source target
      = setupProxyRequest p nowMillis source target).
Proof.
  intros Hshared target'. subst target'.
  assert (Hapart : DirectorSharing.sameHeader sh = false ->
                   DirectorSharing.sameURL sh = false ->
                   DirectorSharing.setupProxyRequestShared sh p nowMillis source target
                   = setupProxyRequest p nowMillis source target).
  { intros Hh Hu. destruct sh as [h u]. cbn in Hh, Hu. subst h u.
    apply setupProxyRequestShared_apart. }
  cut (let target' :=
         snd (DirectorSharing.setupProxyRequestShared sh p nowMillis source target) in
       Method target' = Method target
       /\ Host target' = Host target
       /\ RequestURI target' = RequestURI target
       /\ TLS target' = TLS target
       /\ ReqCookies target' = ReqCookies target
       /\ ReqContext target' = ReqContext target
       /\ UrlPath (ReqURL target') = UrlPath (ReqURL target)
       /\ (forall key,
             key <> "X-Forwarded-Proto" -> key <> "X-Cf-App-Instance" ->
             key <> "X-Request-Start" ->
             ReqHeader target' !! key = ReqHeader target !! key)
       /\ (DirectorSharing.sameHeader sh = false ->
           ReqHeader target' !! "X-Request-Start" = ReqHeader target !! "X-Request-Start")
       /\ (DirectorSharing.sameHeader sh = true ->
           ReqHeader target' !! "X-Request-Start"
           = match ReqHeader target !! "X-Request-Start" with
             | Some v => Some v
             | None => Some [fmt_d nowMillis]
             end)).
  { cbv zeta. intros (H1 & H2 & H3 & H4 & H5 & H6 & H7 & H8 & H9 & H10).
    repeat (split; [assumption|]). exact Hapart. }
  clear Hapart. cbv zeta.
  unfold DirectorSharing.setupProxyRequestShared, DirectorSharing.writeTargetHeader,
    DirectorSharing.writeSourceHeader, DirectorSharing.writeTargetURL,
    SetRequestXRequestStart, HeaderDel, HeaderSet.
  change (CanonicalHeaderKey CfAppInstance) with "X-Cf-App-Instance".
  change (CanonicalHeaderKey "X-Forwarded-Proto") with "X-Forwarded-Proto".
  change (CanonicalHeaderKey "X-Request-Start") with "X-Request-Start".
  cbv zeta. cbn [fst snd].
  destruct (DirectorSharing.sameHeader sh) eqn:Hh;
    destruct (DirectorSharing.sameURL sh);
    cbn [fst snd withURL withHeader Method Host RequestURI TLS ReqCookies ReqContext
         ReqURL UrlPath ReqHeader];
    try rewrite !(Hshared eq_refl);
    (destruct (forceForwardedProtoHttps p);
     [|match goal with
       | |- context [String.eqb ?x ""] => destruct (String.eqb x "")
       end]);
    cbn [fst snd withURL withHeader Method Host RequestURI TLS ReqCookies ReqContext
         ReqURL UrlPath ReqHeader];
    try rewrite !(Hshared eq_refl);
    try rewrite !lookup_insert_ne by discriminate;
    destruct (ReqHeader target !! "X-Request-Start") eqn:Hstamp;
    try match goal with
        | |- context [ReqHeader source !! "X-Request-Start"] =>
            destruct (ReqHeader source !! "X-Request-Start")
        end;
    cbn [fst snd withURL withHeader Method Host RequestURI TLS ReqCookies ReqContext
         ReqURL UrlPath ReqHeader];
    try rewrite !(Hshared eq_refl);
    repeat split;
    try (intros key Hxfp Hcf Hstart);
    try (intros Hcase; try discriminate Hcase);
    rewrite ?lookup_delete_ne by congruence;
    rewrite ?lookup_insert_ne by congruence;
    rewrite ?lookup_insert_eq;
    try reflexivity; try assumption; try congruence.
Qed.

Lemma setupProxyRequest_frame_witness :
  let shared := {| DirectorSharing.sameHeader := true; DirectorSharing.sameURL := true |} in
  let request := requestTo "myapp.com" {[ "Accept" := ["*/*"] ]} in
  ReqHeader (snd (DirectorSharing.setupProxyRequestShared shared defaultProxy 1500
                    request request)) !! "Accept"
  = Some ["*/*"]
  /\ ReqHeader (snd (DirectorSharing.setupProxyRequestShared shared defaultProxy 1500
                       request request)) !! "X-Request-Start"
     = Some ["1500"].
Proof.
  intros shared request.
  destruct (setupProxyRequest_frame shared defaultProxy 1500 request request
              (fun _ => eq_refl))
    as (_ & _ & _ & _ & _ & _ & _ & Hkeys & _ & Hstamp & _).
  split.
  - rewrite Hkeys; [reflexivity | discriminate | discriminate | discriminate].
  - rewrite (Hstamp eq_refl). reflexivity.
Defined.

(** X10: the director is idempotent on the target: run again with the same
    source, at any later time, on the target it produced, it produces that
    target again. *)
Theorem setupProxyRequest_idempotent (p : proxy) (nowMillis laterMillis : Z)
    (source target : Request) :
  snd (setupProxyRequest p laterMillis source
         (snd (setupProxyRequest p nowMillis source target)))
  = snd (setupProxyRequest p nowMillis source target).
Proof.
  assert (Hne : CanonicalHeaderKey "X-Forwarded-Proto"
                <> CanonicalHeaderKey CfAppInstance) by discriminate.
  assert (Hset : forall (h : Header) v,
            HeaderDel (HeaderSet (HeaderDel (HeaderSet h "X-Forwarded-Proto" v)
                                    CfAppInstance)
                         "X-Forwarded-Proto" v) CfAppInstance
            = HeaderDel (HeaderSet h "X-Forwarded-Proto" v) CfAppInstance).
  { intros h v. unfold HeaderDel, HeaderSet.
    rewrite (insert_delete_ne _ _ _ _ Hne), insert_insert_eq, delete_delete_eq.
    reflexivity. }
  assert (Hdel : forall h : Header,
            HeaderDel (HeaderDel h CfAppInstance) CfAppInstance
            = HeaderDel h CfAppInstance).
  { intros h. unfold HeaderDel. apply delete_delete_eq. }
  unfold setupProxyRequest. cbn [snd].
  destruct (forceForwardedProtoHttps p);
    [|destruct (String.eqb (HeaderGet (ReqHeader source) "X-Forwarded-Proto") "")];
    unfold withURL, withHeader;
    cbn [Method Host RequestURI TLS ReqCookies ReqContext ReqURL UrlPath ReqHeader];
    rewrite ?Hset, ?Hdel; reflexivity.
Qed.

End DirectorFrame.

Section ServePrerequisites.
Import GoStrings Http Route Proxy Fixtures ProxyFixtures MoreFixtures.

(** X11: [ServeHTTP] answers 500 with [AccessLogRecord not set on context]
    when the access-log record is missing from the context, whatever the
    headers and the route pool, and 500 with [RoutePool not set on context]
    when the record is there and the pool is missing; it hands the request
    to a tunnel or to the next handler only when its writer is the proxy's
    and both are on the context, and the iterator a tunnel gets is built
    from that pool, the default load balance and the sticky identifier of
    the request's cookies. *)
Theorem ServeHTTP_prerequisites (ToLower : string -> string) (p : proxy)
    (responseWriter : ResponseWriter) (request : Request) :
  (IsProxyResponseWriter responseWriter = true ->
   ReqContext request !! "AccessLogRecord" = None ->
   ServeHTTP ToLower p responseWriter request
   = HttpError "AccessLogRecord not set on context" 500)
  /\ (forall accessLog,
        IsProxyResponseWriter responseWriter = true ->
        ReqContext request !! "AccessLogRecord" = Some (AccessLogRecordValue accessLog) ->
        ReqContext request !! "RoutePool" = None ->
        ServeHTTP ToLower p responseWriter request
        = HttpError "RoutePool not set on context" 500)
  /\ ((ServeHTTP ToLower p responseWriter request = NextHandler
       \/ exists iter,
            ServeHTTP ToLower p responseWriter request = HandleTcpRequest iter
            \/ ServeHTTP ToLower p responseWriter request = HandleWebSocketRequest iter) ->
      IsProxyResponseWriter responseWriter = true
      /\ (exists accessLog,
            ReqContext request !! "AccessLogRecord" = Some (AccessLogRecordValue accessLog))
      /\ (exists routePool,
            ReqContext request !! "RoutePool" = Some (RoutePoolValue routePool)
            /\ forall iter,
                 ServeHTTP ToLower p responseWriter request = HandleTcpRequest iter
                 \/ ServeHTTP ToLower p responseWriter request = HandleWebSocketRequest iter ->
                 iter = {| iterPool := routePool;
                           iterLoadBalance := defaultLoadBalance p;
                           iterStickyEndpointId := getStickySession request |})).
Proof.
  unfold ServeHTTP. split; [|split].
  - intros -> ->. reflexivity.
  - intros accessLog -> -> ->. reflexivity.
  - destruct (IsProxyResponseWriter responseWriter); cbn [negb];
      [|intros [H | (iter & [H | H])]; discriminate H].
    destruct (ReqContext request !! "AccessLogRecord") as [[accessLog | |]|];
      try (intros [H | (iter & [H | H])]; discriminate H).
    destruct (ReqContext request !! "RoutePool") as [[| routePool |]|];
      try (intros [H | (iter & [H | H])]; discriminate H).
    intros _. split; [reflexivity|]. split; [eauto|].
    exists routePool. split; [reflexivity|].
    intros iter.
    destruct (isTcpUpgrade ToLower request);
      [|destruct (isWebSocketUpgrade ToLower request)];
      intros [H | H]; try discriminate H; injection H as <-; reflexivity.
Qed.

Lemma ServeHTTP_prerequisites_witness :
  ServeHTTP asciiToLower defaultProxy proxyWriter
    {| Method := "GET"; ReqURL := emptyURL;
       ReqHeader := {[ "Connection" := ["Upgrade"]; "Upgrade" := ["websocket"] ]};
       Host := "myapp.com"; RequestURI := "/"; TLS := false; ReqCookies := [];
       ReqContext := {[ "RoutePool" := RoutePoolValue [] ]} |}
  = HttpError "AccessLogRecord not set on context" 500.
Proof.
  apply (ServeHTTP_prerequisites asciiToLower defaultProxy proxyWriter); reflexivity.
Defined.

End ServePrerequisites.

(** ** proxy.go: the wrapped iterator *)

Section WrappedIteratorRuns.
Import GoStrings Http Route Metrics RoundTripper Fixtures ProxyFixtures MetricsSender.
Import WrappedIterator WrappedFixtures.

Lemma runCalls_next {X : Type} (it : EndpointIterator X) (cs : list IteratorCall) (x : X) :
  runCalls it (DoNext :: cs) x
  = (fst (Next it x) :: fst (runCalls it cs (snd (Next it x))),
     snd (runCalls it cs (snd (Next it x)))).
Proof.
  cbn [runCalls]. destruct (Next it x) as [e x']. cbn [fst snd].
  destruct (runCalls it cs x') as [es x'']. reflexivity.
Qed.

Example wrapped_run :
  let it := asIterator (serveIterator listIterator CaptureRoutingRequest) in
  let start := ([endpointWithComponent "dea-1"; endpointWithComponent "router"],
                {| accessLog := {| RouteEndpoint := None |}; reporter := freshReporter |}) in
  let '(results, (remaining, s)) :=
    runCalls it [DoNext; DoEndpointFailed; DoNext; DoNext] start in
  results = [Some (endpointWithComponent "dea-1"); Some (endpointWithComponent "router"); None]
  /\ remaining = []
  /\ RouteEndpoint (accessLog s) = Some (endpointWithComponent "router")
  /\ counterValue (reporter s) "total_requests" = 2%nat.
Proof. vm_compute. repeat split; reflexivity. Qed.

(** Runs of a wrapped iterator whose callback works on state of its own:
    the results and the nested iterator's state are those of the nested
    iterator run alone. *)
Lemma wrappedIterator_runs {I S : Type} (w : wrappedIterator I S)
    (cs : list IteratorCall) (i : I) (s : S) :
  fst (runCalls (asIterator w) cs (i, s)) = fst (runCalls (nested w) cs i)
  /\ fst (snd (runCalls (asIterator w) cs (i, s))) = snd (runCalls (nested w) cs i)
  /\ (afterNext w = None -> snd (snd (runCalls (asIterator w) cs (i, s))) = s).
Proof.
  revert i s; induction cs as [|c cs IH]; intros i s.
  - repeat split.
  - destruct c.
    + rewrite !runCalls_next. cbn [fst snd].
      assert (Hnext : fst (Next (asIterator w) (i, s)) = fst (Next (nested w) i)
                      /\ fst (snd (Next (asIterator w) (i, s))) = snd (Next (nested w) i)
                      /\ (afterNext w = None -> snd (snd (Next (asIterator w) (i, s))) = s)).
      { cbn [asIterator Next wrappedNext fst snd]. unfold wrappedNext. cbn [fst snd].
        destruct (Next (nested w) i) as [e i'].
        destruct (afterNext w); repeat split; discriminate. }
      destruct Hnext as (He & Hi & Hs).
      destruct (Next (asIterator w) (i, s)) as [e [i' s']]. cbn [fst snd] in *.
      destruct (IH i' s') as (IH1 & IH2 & IH3). subst i'.
      split; [rewrite He, IH1; reflexivity|]. split; [exact IH2|].
      intros Hnone. rewrite (IH3 Hnone). exact (Hs Hnone).
    + cbn [runCalls asIterator EndpointFailed wrappedEndpointFailed].
      unfold wrappedEndpointFailed. cbn [fst snd]. apply IH.
    + cbn [runCalls asIterator PreRequest wrappedPreRequest].
      unfold wrappedPreRequest. cbn [fst snd]. apply IH.
    + cbn [runCalls asIterator PostRequest wrappedPostRequest].
      unfold wrappedPostRequest. cbn [fst snd]. apply IH.
Qed.

(** X12: the iterator [ServeHTTP] builds is transparent: over any run of
    [Next], [EndpointFailed], [PreRequest] and [PostRequest] calls it
    returns the endpoints the nested iterator returns and leaves the nested
    iterator in the state the same run leaves it in when made on it
    directly.  So does a wrapped iterator whose [afterNext] is nil, which
    changes nothing else either. *)
Theorem serveIterator_transparent {I R : Type} (endpoints : EndpointIterator I)
    (capture : R -> Endpoint -> R) (cs : list IteratorCall) (i : I) (s : ServeState R) :
  fst (runCalls (asIterator (serveIterator endpoints capture)) cs (i, s))
  = fst (runCalls endpoints cs i)
  /\ fst (snd (runCalls (asIterator (serveIterator endpoints capture)) cs (i, s)))
     = snd (runCalls endpoints cs i)
  /\ runCalls (asIterator {| nested := endpoints; afterNext := None |}) cs (i, s)
     = (fst (runCalls endpoints cs i), (snd (runCalls endpoints cs i), s)).
Proof.
  destruct (wrappedIterator_runs (serveIterator endpoints capture) cs i s)
    as (Hresults & Hnested & _).
  split; [exact Hresults|]. split; [exact Hnested|].
  destruct (wrappedIterator_runs
              {| nested := endpoints; afterNext := @None (option Endpoint ->
                                                          ServeState R -> ServeState R) |}
              cs i s) as (Hr & Hn & Hs).
  cbn [nested afterNext] in Hr, Hn, Hs. specialize (Hs eq_refl).
  destruct (runCalls (asIterator {| nested := endpoints; afterNext := None |}) cs (i, s))
    as [results [i' s']].
  cbn [fst snd] in Hr, Hn, Hs. rewrite <- Hr, <- Hn, Hs. reflexivity.
Qed.

(** The callback's state after a run of the iterator [ServeHTTP] builds. *)
Lemma serveIterator_state {I R : Type} (endpoints : EndpointIterator I)
    (capture : R -> Endpoint -> R) (cs : list IteratorCall) (i : I) (s : ServeState R) :
  let run := runCalls (asIterator (serveIterator endpoints capture)) cs (i, s) in
  RouteEndpoint (accessLog (snd (snd run)))
  = lastEndpoint (returned (fst run)) (RouteEndpoint (accessLog s))
  /\ reporter (snd (snd run)) = fold_left capture (returned (fst run)) (reporter s).
Proof.
  revert i s; induction cs as [|c cs IH]; intros i s; cbv zeta.
  - split; reflexivity.
  - destruct c.
    + rewrite !runCalls_next. cbn [fst snd].
      cbn [asIterator Next wrappedNext serveIterator nested afterNext].
      unfold wrappedNext. cbn [fst snd nested afterNext serveIterator].
      destruct (Next endpoints i) as [e i']. cbn [fst snd].
      specialize (IH i' (serveAfterNext capture e s)). cbv zeta in IH.
      destruct IH as [IH1 IH2]. rewrite IH1, IH2.
      destruct e as [e|]; split; reflexivity.
    + cbn [runCalls asIterator EndpointFailed wrappedEndpointFailed].
      unfold wrappedEndpointFailed. cbn [fst snd]. apply IH.
    + cbn [runCalls asIterator PreRequest wrappedPreRequest].
      unfold wrappedPreRequest. cbn [fst snd]. apply IH.
    + cbn [runCalls asIterator PostRequest wrappedPostRequest].
      unfold wrappedPostRequest. cbn [fst snd]. apply IH.
Qed.

Lemma fold_CaptureRoutingRequest (es : list Endpoint) (m : MetricsReporter) :
  fold_left CaptureRoutingRequest es m = performAll m (List.map RoutingRequest es).
Proof.
  revert m; induction es as [|e es IH]; intros m; [reflexivity|].
  cbn [fold_left List.map performAll]. rewrite IH. reflexivity.
Qed.

(** X13: over any run of calls on the iterator [ServeHTTP] builds, the
    access-log record's [RouteEndpoint] is the endpoint the latest
    successful [Next] returned (and what it was before, if no [Next]
    returned one), the reporter has captured exactly the endpoints
    returned, in order, and with the metrics reporter [total_requests] has
    grown by the number of endpoints returned; a [Next] that returns none
    changes neither. *)
Theorem serveIterator_records {I : Type} (endpoints : EndpointIterator I)
    (cs : list IteratorCall) (i : I) (s : ServeState MetricsReporter) :
  let run := runCalls (asIterator (serveIterator endpoints CaptureRoutingRequest)) cs (i, s) in
  RouteEndpoint (accessLog (snd (snd run)))
  = lastEndpoint (returned (fst run)) (RouteEndpoint (accessLog s))
  /\ reporter (snd (snd run))
     = fold_left CaptureRoutingRequest (returned (fst run)) (reporter s)
  /\ counterValue (reporter (snd (snd run))) "total_requests"
     = (counterValue (reporter s) "total_requests" + length (returned (fst run)))%nat
  /\ (returned (fst run) = [] -> snd (snd run) = s).
Proof.
  intros run.
  destruct (serveIterator_state endpoints CaptureRoutingRequest cs i s) as [Hlog Hrep].
  fold run in Hlog, Hrep.
  split; [exact Hlog|]. split; [exact Hrep|]. split.
  - rewrite Hrep, fold_CaptureRoutingRequest, counterValue_performAll.
    rewrite (list_sum_indicator isRoutingRequest) by (intros c; apply batched_globals).
    f_equal. generalize (returned (fst run)). clear.
    induction l as [|e es IH]; [reflexivity|].
    cbn [List.map List.filter isRoutingRequest length]. rewrite IH. reflexivity.
  - intros Hnone. rewrite Hnone in Hlog, Hrep. cbn in Hlog, Hrep.
    destruct (snd (snd run)) as [[l] r], s as [[l0] r0]. cbn in *. congruence.
Qed.

Lemma serveIterator_records_witness :
  snd (snd (runCalls (asIterator (serveIterator listIterator CaptureRoutingRequest))
              [DoNext; DoEndpointFailed] ([], {| accessLog := {| RouteEndpoint := None |};
                                                 reporter := freshReporter |})))
  = {| accessLog := {| RouteEndpoint := None |}; reporter := freshReporter |}.
Proof.
  apply (serveIterator_records listIterator [DoNext; DoEndpointFailed] []
           {| accessLog := {| RouteEndpoint := None |}; reporter := freshReporter |}).
  reflexivity.
Defined.

End WrappedIteratorRuns.
